(** * Outlier Earnings Analyzer: a shallow embedding of [app.py]

    The script reads an uploaded CSV into a pandas DataFrame, cleans the
    [payout] and [workDate] columns, aggregates the rows per calendar day,
    derives the Tuesday-to-Monday pay period of the most recent date and
    renders the result with Streamlit.

    The embedding has two layers.  Module [Py] models the library calls the
    script relies on (Python's [float], the [strptime] format
    ["%b %d, %Y"], [Timestamp] arithmetic with [NaT], pandas' [sum],
    [dropna], [sort_values] and [groupby]).  Module [App] is the script
    itself, statement by statement, in a writer/exception monad whose output
    is the list of Streamlit elements rendered so far.

    Modelling choices:
    - a float is an exact rational, or one of the special values [nan],
      [inf], [-inf]; binary rounding and overflow are not modelled;
    - a [Timestamp] is the proleptic Gregorian ordinal of its day (the
      format carries no time of day), or [NaT]; the finite range of
      pandas' [Timestamp] is not modelled;
    - the DataFrame is the result of [pd.read_csv]: a list of column names
      and, for the two columns the computation reads, one cell per row,
      which is either missing ([NaN]) or the text of the field. *)

From Stdlib Require Import List ZArith QArith Qfield String Ascii Bool Lia.
From Stdlib Require Import Permutation Sorted Setoid Morphisms.
Import ListNotations.

Local Open Scope string_scope.
Local Open Scope list_scope.
Local Open Scope Z_scope.

(* ===================================================================== *)
(** * Library semantics *)
(* ===================================================================== *)

Module Py.

(** ** Floats *)

Inductive pyfloat : Type :=
| Fin (q : Q)
| Inf (negative : bool)
| NaN.

Definition fzero : pyfloat := Fin 0%Q.

(** [x + y] on floats: [inf + -inf] is [nan], [nan] is absorbing. *)
Definition fadd (x y : pyfloat) : pyfloat :=
  match x, y with
  | NaN, _ | _, NaN => NaN
  | Fin a, Fin b => Fin (a + b)%Q
  | Inf s, Fin _ | Fin _, Inf s => Inf s
  | Inf s, Inf t => if Bool.eqb s t then Inf s else NaN
  end.

(** [x / n] for a non-zero integer [n]. *)
Definition fdivn (x : pyfloat) (n : nat) : pyfloat :=
  match x with
  | Fin a => Fin (a / inject_Z (Z.of_nat n))%Q
  | other => other
  end.

Definition isnan (x : pyfloat) : bool :=
  match x with NaN => true | _ => false end.

(** Numeric equality of floats: rationals are compared as numbers. *)
Definition feq (x y : pyfloat) : Prop :=
  match x, y with
  | Fin a, Fin b => (a == b)%Q
  | Inf s, Inf t => s = t
  | NaN, NaN => True
  | _, _ => False
  end.

(** ** Characters *)

Definition chars := list ascii.

Definition is_space (c : ascii) : bool :=
  let n := N_of_ascii c in
  (((9 <=? n) && (n <=? 13)) || ((28 <=? n) && (n <=? 32)))%N.

Definition digit_val (c : ascii) : option Z :=
  let n := Z.of_N (N_of_ascii c) in
  if (48 <=? n) && (n <=? 57) then Some (n - 48) else None.

Definition lower (c : ascii) : ascii :=
  let n := N_of_ascii c in
  if ((65 <=? n) && (n <=? 90))%N then ascii_of_N (n + 32) else c.

Definition chars_eqb (a b : chars) : bool :=
  String.eqb (string_of_list_ascii a) (string_of_list_ascii b).

Fixpoint lstrip (cs : chars) : chars :=
  match cs with
  | c :: cs' => if is_space c then lstrip cs' else cs
  | [] => []
  end.

Definition strip (cs : chars) : chars :=
  rev (lstrip (rev (lstrip cs))).

(** ** [float(s)]

    The grammar of Python's [float]:
    [[sign] (floatnumber | "inf" | "infinity" | "nan")] between optional
    white space, letters in any case, where
    [floatnumber ::= ([digitpart] "." digitpart | digitpart ["."]) [exponent]],
    [digitpart ::= digit (["_"] digit)*] and
    [exponent ::= ("e" | "E") [sign] digitpart]. *)

(** The rest of a [digitpart] after its first digit: [acc] is the value
    read so far and [n] the number of digits. *)
Fixpoint digits_tail (cs : chars) (acc : Z) (n : Z) : Z * Z * chars :=
  match cs with
  | c :: cs' =>
      match digit_val c with
      | Some d => digits_tail cs' (10 * acc + d) (n + 1)
      | None =>
          if Ascii.eqb c "_" then
            match cs' with
            | c2 :: cs'' =>
                match digit_val c2 with
                | Some d => digits_tail cs'' (10 * acc + d) (n + 1)
                | None => (acc, n, cs)
                end
            | [] => (acc, n, cs)
            end
          else (acc, n, cs)
      end
  | [] => (acc, n, [])
  end.

Definition digitpart (cs : chars) : option (Z * Z * chars) :=
  match cs with
  | c :: cs' =>
      match digit_val c with
      | Some d => Some (digits_tail cs' d 1)
      | None => None
      end
  | [] => None
  end.

(** [number]: the mantissa as an integer, the number of digits after the
    point, and the rest of the input. *)
Definition number (cs : chars) : option (Z * Z * chars) :=
  match digitpart cs with
  | Some (ip, _, rest) =>
      match rest with
      | "."%char :: rest' =>
          match digitpart rest' with
          | Some (fp, k, rest'') => Some (ip * 10 ^ k + fp, k, rest'')
          | None => Some (ip, 0, rest')
          end
      | _ => Some (ip, 0, rest)
      end
  | None =>
      match cs with
      | "."%char :: rest' => digitpart rest'
      | _ => None
      end
  end.

Definition sign (cs : chars) : bool * chars :=
  match cs with
  | "-"%char :: cs' => (true, cs')
  | "+"%char :: cs' => (false, cs')
  | _ => (false, cs)
  end.

(** [exponent], which must reach the end of the input. *)
Definition exponent (cs : chars) : option Z :=
  match cs with
  | [] => Some 0
  | c :: cs' =>
      if Ascii.eqb (lower c) "e" then
        let (neg, cs'') := sign cs' in
        match digitpart cs'' with
        | Some (e, _, []) => Some (if neg then - e else e)
        | _ => None
        end
      else None
  end.

(** [m * 10 ^ e] as a reduced rational. *)
Definition scale10 (m e : Z) : Q :=
  if 0 <=? e then inject_Z (m * 10 ^ e)
  else Qred (Qmake m (Z.to_pos (10 ^ (- e)))).

Definition float_of_chars (cs : chars) : option pyfloat :=
  let (neg, body) := sign (strip cs) in
  let word := map lower body in
  if chars_eqb word (list_ascii_of_string "inf")
     || chars_eqb word (list_ascii_of_string "infinity") then Some (Inf neg)
  else if chars_eqb word (list_ascii_of_string "nan") then Some NaN
  else
    match number body with
    | Some (m, k, rest) =>
        match exponent rest with
        | Some e => Some (Fin (scale10 (if neg then - m else m) (e - k)))
        | None => None
        end
    | None => None
    end.

Definition float (s : string) : option pyfloat :=
  float_of_chars (list_ascii_of_string s).

(** ** Calendar dates

    Python's [datetime] arithmetic on proleptic Gregorian ordinals: day 1
    is 0001-01-01, a Monday. *)

Definition DAYS_IN_MONTH : list Z :=
  [-1; 31; 28; 31; 30; 31; 30; 31; 31; 30; 31; 30; 31].

Definition DAYS_BEFORE_MONTH : list Z :=
  [-1; 0; 31; 59; 90; 120; 151; 181; 212; 243; 273; 304; 334].

Definition is_leap (year : Z) : bool :=
  (year mod 4 =? 0) && (negb (year mod 100 =? 0) || (year mod 400 =? 0)).

Definition days_before_year (year : Z) : Z :=
  let y := year - 1 in y * 365 + y / 4 - y / 100 + y / 400.

Definition days_in_month (year month : Z) : Z :=
  if (month =? 2) && is_leap year then 29
  else nth (Z.to_nat month) DAYS_IN_MONTH (-1).

Definition days_before_month (year month : Z) : Z :=
  nth (Z.to_nat month) DAYS_BEFORE_MONTH (-1)
  + (if (2 <? month) && is_leap year then 1 else 0).

Definition ymd2ord (year month day : Z) : Z :=
  days_before_year year + days_before_month year month + day.

(** ** Timestamps *)

Inductive Timestamp : Type :=
| NaT
| Ts (ordinal : Z).

(** [t.weekday()]: Monday is 0 and Sunday is 6; [NaT.weekday()] is the
    float [nan], here [None]. *)
Definition weekday (t : Timestamp) : option Z :=
  match t with
  | NaT => None
  | Ts o => Some ((o + 6) mod 7)
  end.

(** [w >= n] where [w] may be [nan]: every comparison with [nan] is
    false. *)
Definition ge_int (w : option Z) (n : Z) : bool :=
  match w with
  | Some d => n <=? d
  | None => false
  end.

(** [w - n] where [w] may be [nan]. *)
Definition sub_int (w : option Z) (n : Z) : option Z :=
  option_map (fun d => d - n) w.

(** [pd.Timedelta(days=d)]; [d] may be [nan], which gives [NaT]. *)
Definition Timedelta := option Z.

Definition ts_sub (t : Timestamp) (d : Timedelta) : Timestamp :=
  match t, d with
  | Ts o, Some n => Ts (o - n)
  | _, _ => NaT
  end.

Definition ts_add (t : Timestamp) (d : Timedelta) : Timestamp :=
  match t, d with
  | Ts o, Some n => Ts (o + n)
  | _, _ => NaT
  end.

(** [a <= b] on timestamps; a comparison with [NaT] is false. *)
Definition ts_leb (a b : Timestamp) : bool :=
  match a, b with
  | Ts x, Ts y => x <=? y
  | _, _ => false
  end.

Definition isnat (t : Timestamp) : bool :=
  match t with NaT => true | Ts _ => false end.

(** ** [strptime] with the format ["%b %d, %Y"]

    The format compiles to the regular expression
    [(jan|feb|...|dec)\s+(3[0-1]|[1-2]\d|0[1-9]|[1-9]| [1-9]),\s+(\d\d\d\d)],
    matched ignoring case from the start of the text; pandas then requires
    that nothing is left over. *)

Definition month_names : list string :=
  ["jan"; "feb"; "mar"; "apr"; "may"; "jun";
   "jul"; "aug"; "sep"; "oct"; "nov"; "dec"].

Fixpoint index_of (w : string) (l : list string) (i : Z) : option Z :=
  match l with
  | [] => None
  | x :: l' => if String.eqb w x then Some i else index_of w l' (i + 1)
  end.

Definition month_field (cs : chars) : option (Z * chars) :=
  match cs with
  | a :: b :: c :: rest =>
      match index_of (string_of_list_ascii (map lower [a; b; c]))
                     month_names 1 with
      | Some m => Some (m, rest)
      | None => None
      end
  | _ => None
  end.

(** [\s+] *)
Definition spaces (cs : chars) : option chars :=
  match cs with
  | c :: _ => if is_space c then Some (lstrip cs) else None
  | [] => None
  end.

(** [,\s+\d\d\d\d] up to the end of the text. *)
Definition year_field (cs : chars) : option Z :=
  match cs with
  | ","%char :: cs' =>
      match spaces cs' with
      | Some [a; b; c; d] =>
          match digit_val a, digit_val b, digit_val c, digit_val d with
          | Some a, Some b, Some c, Some d =>
              Some (1000 * a + 100 * b + 10 * c + d)
          | _, _, _, _ => None
          end
      | _ => None
      end
  | _ => None
  end.

(** The alternatives of the day group in the order the expression tries
    them, each with the text that follows it.  The last alternative, a
    space and a digit, needs [\s+] to give back a space it has taken and
    then matches what [[1-9]] matches. *)
Definition day_field (cs : chars) : list (Z * chars) :=
  match cs with
  | c1 :: cs1 =>
      match digit_val c1 with
      | Some a =>
          (match cs1 with
           | c2 :: cs2 =>
               match digit_val c2 with
               | Some b =>
                   if ((a =? 3) && (b <=? 1)) || ((1 <=? a) && (a <=? 2))
                      || ((a =? 0) && (1 <=? b))
                   then [(10 * a + b, cs2)] else []
               | None => []
               end
           | [] => []
           end)
          ++ (if 1 <=? a then [(a, cs1)] else [])
      | None => []
      end
  | [] => []
  end.

Fixpoint first_year (alts : list (Z * chars)) : option (Z * Z) :=
  match alts with
  | [] => None
  | (d, rest) :: alts' =>
      match year_field rest with
      | Some y => Some (d, y)
      | None => first_year alts'
      end
  end.

(** The fields [(year, month, day)] of a text that matches. *)
Definition strptime (s : string) : option (Z * Z * Z) :=
  match month_field (list_ascii_of_string s) with
  | Some (m, rest) =>
      match spaces rest with
      | Some rest' =>
          match first_year (day_field rest') with
          | Some (d, y) => Some (y, m, d)
          | None => None
          end
      | None => None
      end
  | None => None
  end.

(** ** pandas *)

(** A cell of a frame read by [pd.read_csv]: missing, or the text of the
    field.  (A column whose every field is a number is read as numbers;
    a number is then the text that denotes it.) *)
Inductive cell : Type :=
| NA
| Text (s : string).

(** [pd.to_datetime(_, format='%b %d, %Y', errors='coerce')] on one cell:
    a text that does not match, or that names no day of the calendar,
    becomes [NaT]. *)
Definition to_datetime (c : cell) : Timestamp :=
  match c with
  | NA => NaT
  | Text s =>
      match strptime s with
      | Some (y, m, d) =>
          if (1 <=? y) && (d <=? days_in_month y m)
          then Ts (ymd2ord y m d) else NaT
      | None => NaT
      end
  end.

(** [Series.sum()]: missing values are skipped, the empty sum is [0.0].
    Arithmetic is exact, so the order of the additions is immaterial. *)
Definition fsum (l : list pyfloat) : pyfloat :=
  fold_right fadd fzero l.

Definition nansum (l : list pyfloat) : pyfloat :=
  fsum (filter (fun x => negb (isnan x)) l).

(** [Series.max()] on timestamps: [NaT] is skipped, and is the result
    when nothing is left. *)
Definition ts_max2 (a b : Timestamp) : Timestamp :=
  match a, b with
  | NaT, t | t, NaT => t
  | Ts x, Ts y => Ts (Z.max x y)
  end.

Definition ts_max (l : list Timestamp) : Timestamp :=
  fold_right ts_max2 NaT l.

(** A row of the frame once both columns are converted. *)
Record Row : Type := mkRow { workDate : Timestamp; payout : pyfloat }.

(** [df.dropna(subset=['workDate'])] *)
Definition dropna (df : list Row) : list Row :=
  filter (fun r => negb (isnat (workDate r))) df.

(** [df.sort_values('workDate', ascending=False)]: latest day first,
    [NaT] last.  Rows of one day keep their order here; pandas' default
    sort may permute them, which no sum below can observe. *)
Definition later (a b : Timestamp) : bool :=
  match a, b with
  | Ts x, Ts y => y <? x
  | Ts _, NaT => true
  | NaT, _ => false
  end.

Fixpoint insert_row (r : Row) (df : list Row) : list Row :=
  match df with
  | [] => [r]
  | x :: df' =>
      if later (workDate x) (workDate r) then x :: insert_row r df'
      else r :: df
  end.

Definition sort_values (df : list Row) : list Row :=
  fold_right insert_row [] df.

(** [df['workDate'].dt.date]: the day of each row; a row without one has
    no key. *)
Fixpoint dt_date (df : list Row) : list Z :=
  match df with
  | [] => []
  | r :: df' =>
      match workDate r with
      | Ts o => o :: dt_date df'
      | NaT => dt_date df'
      end
  end.

Definition on_day (k : Z) (r : Row) : bool :=
  match workDate r with
  | Ts o => o =? k
  | NaT => false
  end.

(** The distinct keys in the order in which they are first seen. *)
Fixpoint unique (seen : list Z) (ks : list Z) : list Z :=
  match ks with
  | [] => []
  | k :: ks' =>
      if existsb (Z.eqb k) seen then unique seen ks'
      else k :: unique (k :: seen) ks'
  end.

(** [df.groupby(df['workDate'].dt.date, sort=False)]: one group per
    distinct day, in first-seen order, each with its rows in frame order;
    rows without a key belong to no group. *)
Definition groupby (df : list Row) : list (Z * list Row) :=
  map (fun k => (k, filter (on_day k) df)) (unique [] (dt_date df)).

Definition ngroups (g : list (Z * list Row)) : nat := List.length g.

(** [re.sub('[\$,]', '', s)]: every character of the class is removed. *)
Fixpoint re_sub_class (cls : list ascii) (s : string) : string :=
  match s with
  | EmptyString => EmptyString
  | String c s' =>
      if existsb (Ascii.eqb c) cls then re_sub_class cls s'
      else String c (re_sub_class cls s')
  end.

(** [Series.replace(pattern, '', regex=True)] on one cell: a missing
    cell stays missing. *)
Definition replace (cls : list ascii) (c : cell) : cell :=
  match c with
  | NA => NA
  | Text s => Text (re_sub_class cls s)
  end.

End Py.


(* ===================================================================== *)
(** * The script *)
(* ===================================================================== *)

Module App.
Import Py.

(** ** What Streamlit shows

    One constructor per call that adds something to the page.  The three
    cards and the expander carry the values that their f-strings format;
    a day is its ordinal. *)
Inductive element : Type :=
| st_error (msg : string)
| st_info (msg : string)
| st_columns (n : nat)
| total_card (total : pyfloat)
| average_card (days : nat) (average : pyfloat)
| period_card (first_day last_day : Z) (total : pyfloat)
| separator
| expander (day : Z) (total : pyfloat) (rows : list Row).

(** ** Exceptions and output

    A computation renders elements and then either raises ([inl] with
    the text of the exception) or returns.  What was rendered before the
    exception stays on the page. *)
Definition Exn := string.

Definition M (A : Type) : Type := (list element * (Exn + A))%type.

Definition ret {A} (a : A) : M A := ([], inr a).

Definition emit (el : element) : M unit := ([el], inr tt).

(** A call that renders nothing: it only returns or raises. *)
Definition lift {A} (r : Exn + A) : M A := ([], r).

Definition bind {A B} (m : M A) (f : A -> M B) : M B :=
  match m with
  | (out, inl e) => (out, inl e)
  | (out, inr a) => let (out', r) := f a in (out ++ out', r)
  end.

Notation "x <- m ;; k" := (bind m (fun x => k))
  (at level 61, m at next level, right associativity).
Notation "m ;;; k" := (bind m (fun _ => k))
  (at level 61, right associativity).

(** [try: body  except Exception as e: handler(e)] *)
Definition try_except (body : M unit) (handler : Exn -> M unit) : M unit :=
  match body with
  | (out, inl e) => let (out', r) := handler e in (out ++ out', r)
  | done => done
  end.

Fixpoint for_each {A} (l : list A) (f : A -> M unit) : M unit :=
  match l with
  | [] => ret tt
  | x :: l' => f x ;;; for_each l' f
  end.

(** ** The frame *)

Record DataFrame : Type :=
  mkFrame { columns : list string; data : list (list cell) }.

Fixpoint position (col : string) (cols : list string) : option nat :=
  match cols with
  | [] => None
  | c :: cols' =>
      if String.eqb col c then Some O
      else option_map S (position col cols')
  end.

(** [col in df.columns] *)
Definition has_column (df : DataFrame) (col : string) : bool :=
  match position col (columns df) with Some _ => true | None => false end.

(** [df[col]]: the cells of a column; a row that is too short has a
    missing cell there. *)
Definition getitem (df : DataFrame) (col : string) : list cell :=
  match position col (columns df) with
  | Some i => map (fun row => nth i row NA) (data df)
  | None => []
  end.

(** [Series.astype(float)]: [float] on every cell, raising at the first
    text it rejects. *)
Definition float_message (s : string) : Exn :=
  ("could not convert string to float: '" ++ s ++ "'")%string.

Definition float_cell (c : cell) : Exn + pyfloat :=
  match c with
  | NA => inr NaN
  | Text s =>
      match float s with
      | Some x => inr x
      | None => inl (float_message s)
      end
  end.

Fixpoint astype_float (col : list cell) : Exn + list pyfloat :=
  match col with
  | [] => inr []
  | c :: col' =>
      match float_cell c with
      | inl e => inl e
      | inr x =>
          match astype_float col' with
          | inl e => inl e
          | inr xs => inr (x :: xs)
          end
      end
  end.

(** [t.strftime('%b %d, %Y')]: the day to print; [NaT] has none. *)
Definition strftime (t : Timestamp) : Exn + Z :=
  match t with
  | Ts o => inr o
  | NaT => inl "NaTType does not support strftime"
  end.

(** [x / n] *)
Definition truediv (x : pyfloat) (n : nat) : Exn + pyfloat :=
  match n with
  | O => inl "float division by zero"
  | S _ => inr (fdivn x n)
  end.

(** ** Lines 24 to 73: cleaning and aggregation *)

Definition required_columns : list string := ["workDate"; "payout"].

Definition schema_message : string :=
  "The CSV file must contain 'workDate' and 'payout' columns.".

(** Line 31. *)
Definition clean_payout (df : DataFrame) : Exn + list pyfloat :=
  astype_float (map (replace ["$"; ","]%char) (getitem df "payout")).

(** Line 35. *)
Definition clean_workDate (df : DataFrame) : list Timestamp :=
  map to_datetime (getitem df "workDate").

(** The frame with both columns converted. *)
Definition frame (dates : list Timestamp) (payouts : list pyfloat)
  : list Row :=
  map (fun p => mkRow (fst p) (snd p)) (combine dates payouts).

(** Lines 38 and 41: the rows with a valid date, latest first. *)
Definition valid_rows (dates : list Timestamp) (payouts : list pyfloat)
  : list Row :=
  sort_values (dropna (frame dates payouts)).

Definition grouped (df : list Row) : list (Z * list Row) := groupby df.

Definition total_earnings (df : list Row) : pyfloat :=
  nansum (map payout df).

Definition number_of_groups (df : list Row) : nat := ngroups (grouped df).

Definition average_earnings (df : list Row) : Exn + pyfloat :=
  if (0 <? number_of_groups df)%nat
  then truediv (total_earnings df) (number_of_groups df)
  else inr (Fin 0).

Definition most_recent_date (df : list Row) : Timestamp :=
  ts_max (map workDate df).

Definition day_of_week (df : list Row) : option Z :=
  weekday (most_recent_date df).

Definition pay_period_start (df : list Row) : Timestamp :=
  if ge_int (day_of_week df) 1
  then ts_sub (most_recent_date df) (sub_int (day_of_week df) 1)
  else ts_sub (most_recent_date df) (Some 6).

Definition pay_period_end (df : list Row) : Timestamp :=
  ts_add (pay_period_start df) (Some 6).

Definition in_period (df : list Row) (r : Row) : bool :=
  ts_leb (pay_period_start df) (workDate r)
  && ts_leb (workDate r) (pay_period_end df).

Definition current_pay_period (df : list Row) : pyfloat :=
  nansum (map payout (filter (in_period df) df)).

Definition total_payout (group : list Row) : pyfloat :=
  nansum (map payout group).

(** ** Lines 85 to 133: rendering *)

Definition render (df : list Row) (average : pyfloat) : M unit :=
  emit (st_columns 3) ;;;
  emit (total_card (total_earnings df)) ;;;
  emit (average_card (number_of_groups df) average) ;;;
  first_day <- lift (strftime (pay_period_start df)) ;;
  last_day <- lift (strftime (pay_period_end df)) ;;
  emit (period_card first_day last_day (current_pay_period df)) ;;;
  emit separator ;;;
  for_each (grouped df) (fun g =>
    formatted_date <- lift (strftime (Ts (fst g))) ;;
    emit (expander formatted_date (total_payout (snd g)) (snd g))).

(** ** Lines 19 to 138 *)

Definition body (df : DataFrame) : M unit :=
  if negb (forallb (has_column df) required_columns)
  then emit (st_error schema_message)
  else
    payouts <- lift (clean_payout df) ;;
    let df := valid_rows (clean_workDate df) payouts in
    average <- lift (average_earnings df) ;;
    render df average.

Definition generic_message (e : Exn) : string :=
  ("An error occurred while processing the file: " ++ e)%string.

Definition process (df : DataFrame) : M unit :=
  try_except (body df) (fun e => emit (st_error (generic_message e))).

(** The page after the script has run on what was uploaded. *)
Definition script (uploaded_file : option DataFrame) : list element :=
  match uploaded_file with
  | Some df => fst (process df)
  | None => [st_info "Awaiting CSV file upload."]
  end.

End App.


(* ===================================================================== *)
(** * Properties *)
(* ===================================================================== *)

Import Py App.

(** ** Definitions used to state the properties *)

(** The distinct elements of a list in the order of their first
    occurrence, written without an accumulator: the head stays and is
    removed from what follows. *)
Fixpoint first_seen_order (l : list Z) : list Z :=
  match l with
  | [] => []
  | x :: l' => x :: filter (fun y => negb (y =? x)) (first_seen_order l')
  end.

(** Rows in date-descending order. *)
Definition date_descending (df : list Row) : Prop :=
  StronglySorted
    (fun a b => exists x y, workDate a = Ts x /\ workDate b = Ts y /\ y <= x)
    df.

(** The page of a complete summary: the three cards, the separator and
    one expander per group, in group order. *)
Definition full_summary (df : list Row) (average : pyfloat) (first_day : Z)
  : list element :=
  [st_columns 3;
   total_card (total_earnings df);
   average_card (number_of_groups df) average;
   period_card first_day (first_day + 6) (current_pay_period df);
   separator]
  ++ map (fun g => expander (fst g) (total_payout (snd g)) (snd g))
         (grouped df).

Definition is_error (el : element) : bool :=
  match el with st_error _ => true | _ => false end.

Definition is_summary_part (el : element) : bool :=
  match el with
  | st_error _ | st_info _ => false
  | _ => true
  end.

(** Every row has a date. *)
Definition dated (df : list Row) : Prop :=
  Forall (fun r => exists o, workDate r = Ts o) df.

(** The cell of a row in the column named [col]. *)
Definition field (cols : list string) (col : string) (row : list cell)
  : cell :=
  match position col cols with
  | Some i => nth i row NA
  | None => NA
  end.

(** The characters that currency normalization keeps. *)
Definition kept (c : ascii) : bool :=
  negb (Ascii.eqb c "$" || Ascii.eqb c ",").

(** A frame with the two required columns first and one row per pair of
    texts. *)
Definition table (rows : list (string * string)) : DataFrame :=
  mkFrame ["workDate"; "payout"]
          (map (fun r => [Text (fst r); Text (snd r)]) rows).



(** The days in the headers of the expanders of a page. *)
Definition expander_days (page : list element) : list Z :=
  flat_map (fun el => match el with
                      | expander day _ _ => [day]
                      | _ => []
                      end) page.

(** ** The text of a day (lines 117 and 130)

    [t.strftime('%b %d, %Y')] prints the day of a timestamp.  Python's
    [datetime] turns the ordinal back into year, month and day
    ([_ord2ymd]) and prints the abbreviated month name, the day of the
    month on two digits and the year, which has four digits from year
    1000 on. *)

Definition DI400Y : Z := days_before_year 401.
Definition DI100Y : Z := days_before_year 101.
Definition DI4Y : Z := days_before_year 5.

(** Month and day of the [n]-th day (from 0) of a year. *)
Definition month_and_day (n : Z) (leapyear : bool) : Z * Z :=
  let month := Z.shiftr (n + 50) 5 in
  let preceding :=
    nth (Z.to_nat month) DAYS_BEFORE_MONTH (-1)
    + (if (2 <? month) && leapyear then 1 else 0) in
  if n <? preceding then
    let month := month - 1 in
    let preceding :=
      preceding - (nth (Z.to_nat month) DAYS_IN_MONTH (-1)
                   + (if (month =? 2) && leapyear then 1 else 0)) in
    (month, n - preceding + 1)
  else (month, n - preceding + 1).

Definition ord2ymd (ordinal : Z) : Z * Z * Z :=
  let n := ordinal - 1 in
  let n400 := n / DI400Y in
  let n := n mod DI400Y in
  let year := n400 * 400 + 1 in
  let n100 := n / DI100Y in
  let n := n mod DI100Y in
  let n4 := n / DI4Y in
  let n := n mod DI4Y in
  let n1 := n / 365 in
  let n := n mod 365 in
  let year := year + n100 * 100 + n4 * 4 + n1 in
  if (n1 =? 4) || (n100 =? 4) then (year - 1, 12, 31)
  else
    let leapyear := (n1 =? 3) && (negb (n4 =? 24) || (n100 =? 3)) in
    let (month, day) := month_and_day n leapyear in
    (year, month, day).

Definition digit_char (k : Z) : ascii := ascii_of_N (Z.to_N (48 + k)).

Definition month_abbr (m : Z) : string :=
  nth (Z.to_nat (m - 1))
      ["Jan"; "Feb"; "Mar"; "Apr"; "May"; "Jun";
       "Jul"; "Aug"; "Sep"; "Oct"; "Nov"; "Dec"] EmptyString.

(** ["%b %d, %Y"] on the fields of a day. *)
Definition format_ymd (y m d : Z) : string :=
  (month_abbr m
   ++ String " " (String (digit_char (d / 10))
        (String (digit_char (d mod 10))
           (String "," (String " "
              (String (digit_char (y / 1000))
                 (String (digit_char (y / 100 mod 10))
                    (String (digit_char (y / 10 mod 10))
                       (String (digit_char (y mod 10)) EmptyString)))))))))
  %string.

(** The text that [strftime] prints for the day with ordinal [o]. *)
Definition formatted_date (o : Z) : string :=
  let '(y, m, d) := ord2ymd o in format_ymd y m d.

(** What [month_and_day] must satisfy at position [n] of a year: a month
    and a day of that month which is the [n]-th day of the year. *)

Definition month_and_day_ok (leapyear : bool) (n : Z) : bool :=
  let (m, d) := month_and_day n leapyear in
  (1 <=? m) && (m <=? 12) && (1 <=? d)
  && (d <=? (if (m =? 2) && leapyear then 29
             else nth (Z.to_nat m) DAYS_IN_MONTH (-1)))
  && (nth (Z.to_nat m) DAYS_BEFORE_MONTH (-1)
      + (if (2 <? m) && leapyear then 1 else 0) + d =? n + 1).

(** Evaluates the look-ups in the month tables and the tests on the
    month of a goal whose month is a numeral. *)
Ltac in_month_tables :=
  repeat match goal with
         | |- context [nth (Z.to_nat ?m) ?t ?d] =>
             let v := eval vm_compute in (nth (Z.to_nat m) t d) in
             change (nth (Z.to_nat m) t d) with v
         | |- context [Z.eqb ?m 2] =>
             let v := eval vm_compute in (Z.eqb m 2) in
             change (Z.eqb m 2) with v
         | |- context [Z.ltb 2 ?m] =>
             let v := eval vm_compute in (Z.ltb 2 m) in
             change (Z.ltb 2 m) with v
         end.

(** ** The monad *)

Lemma bind_lift_inl {A B} (e : Exn) (f : A -> M B) :
  bind (lift (inl e)) f = ([], inl e).
Proof. reflexivity. Qed.

Lemma bind_lift_inr {A B} (a : A) (f : A -> M B) :
  bind (lift (inr a)) f = f a.
Proof. unfold bind, lift. destruct (f a); reflexivity. Qed.

Lemma bind_emit {B} (el : element) (f : unit -> M B) :
  bind (emit el) f = (el :: fst (f tt), snd (f tt)).
Proof. unfold bind, emit. destruct (f tt); reflexivity. Qed.

Lemma for_each_emit {A} (l : list A) (h : A -> element) :
  for_each l (fun x => emit (h x)) = (map h l, inr tt).
Proof.
  induction l as [|x l IH]; cbn [for_each map].
  - reflexivity.
  - rewrite bind_emit, IH. reflexivity.
Qed.

(** ** C3: the average and its guard *)

Lemma average_earnings_value (df : list Row) :
  average_earnings df
  = inr (match number_of_groups df with
         | O => Fin 0
         | S _ => fdivn (total_earnings df) (number_of_groups df)
         end).
Proof.
  unfold average_earnings.
  destruct (number_of_groups df) as [|n] eqn:E; reflexivity.
Qed.


(** ** Frames without [NaT] *)

Lemma dropna_dated (df : list Row) : dated (dropna df).
Proof.
  unfold dated, dropna. apply Forall_forall. intros r Hr.
  apply filter_In in Hr. destruct Hr as [_ Hr].
  destruct (workDate r) as [|o]; [discriminate | eauto].
Qed.

Lemma insert_row_perm (r : Row) (df : list Row) :
  Permutation (r :: df) (insert_row r df).
Proof.
  induction df as [|x df IH]; simpl.
  - apply Permutation_refl.
  - destruct (later (workDate x) (workDate r)).
    + eapply perm_trans; [apply perm_swap|]. apply perm_skip. exact IH.
    + apply Permutation_refl.
Qed.

Lemma sort_values_perm (df : list Row) : Permutation df (sort_values df).
Proof.
  induction df as [|r df IH]; simpl.
  - apply perm_nil.
  - eapply perm_trans; [apply perm_skip, IH|]. apply insert_row_perm.
Qed.

Lemma valid_rows_dated dates payouts : dated (valid_rows dates payouts).
Proof.
  unfold valid_rows, dated.
  eapply Permutation_Forall; [apply sort_values_perm|]. apply dropna_dated.
Qed.

Lemma ts_max_dated (df : list Row) :
  dated df -> df <> [] ->
  exists m, ts_max (map workDate df) = Ts m
            /\ In m (dt_date df)
            /\ Forall (fun o => o <= m) (dt_date df).
Proof.
  induction 1 as [|r df [o Ho] Hd IH]; intros Hne; [congruence|].
  simpl. rewrite Ho.
  destruct df as [|r' df'].
  - exists o. simpl. repeat split; auto. constructor; [lia | constructor].
  - destruct IH as (m & Hm & Hin & Hall); [discriminate|].
    rewrite Hm. simpl ts_max2. exists (Z.max o m). split; [reflexivity|].
    split.
    + destruct (Z.max_spec o m) as [[_ E]|[_ E]]; rewrite E.
      * right. exact Hin.
      * left. reflexivity.
    + constructor; [lia|].
      eapply Forall_impl; [|exact Hall]. simpl. intros; lia.
Qed.

(** ** The pay period of a frame with at least one dated row *)

Lemma pay_period_of_most_recent (df : list Row) (m : Z) :
  most_recent_date df = Ts m ->
  let dow := (m + 6) mod 7 in
  let start := if 1 <=? dow then m - (dow - 1) else m - 6 in
  pay_period_start df = Ts start /\ pay_period_end df = Ts (start + 6).
Proof.
  intros Hm dow start.
  assert (Hs : pay_period_start df = Ts start).
  { unfold pay_period_start, day_of_week. rewrite Hm. simpl.
    fold dow. subst start. destruct (1 <=? dow); reflexivity. }
  split; [exact Hs|].
  unfold pay_period_end. rewrite Hs. reflexivity.
Qed.

(** ** What [render] puts on the page *)

Lemma render_empty (average : pyfloat) :
  render [] average
  = ([st_columns 3; total_card (Fin 0); average_card 0 average],
     inl "NaTType does not support strftime").
Proof. reflexivity. Qed.

Lemma render_full (df : list Row) (average : pyfloat) (start : Z) :
  pay_period_start df = Ts start ->
  render df average = (full_summary df average start, inr tt).
Proof.
  intros Hs. unfold render, full_summary.
  assert (He : pay_period_end df = Ts (start + 6)).
  { unfold pay_period_end. rewrite Hs. reflexivity. }
  rewrite Hs, He. cbn [strftime].
  rewrite !bind_emit, !bind_lift_inr, !bind_emit.
  replace (for_each (grouped df) _)
    with (for_each (grouped df)
            (fun g => emit (expander (fst g) (total_payout (snd g)) (snd g)))).
  - rewrite for_each_emit. reflexivity.
  - clear. induction (grouped df) as [|g l IH]; cbn [for_each].
    + reflexivity.
    + rewrite IH. cbn [strftime]. rewrite bind_lift_inr. reflexivity.
Qed.

(** ** The four outcomes of an upload *)

Lemma has_required_columns (df : DataFrame) :
  forallb (has_column df) required_columns = true
  <-> In "workDate" (columns df) /\ In "payout" (columns df).
Proof.
  assert (P : forall col cols,
             (exists i, position col cols = Some i) <-> In col cols).
  { intros col cols. induction cols as [|c cols IH]; simpl.
    - split; [intros [i Hi]; discriminate | tauto].
    - destruct (String.eqb_spec col c) as [E|N].
      + split; [auto | eauto].
      + rewrite <- IH. split.
        * intros [i Hi]. destruct (position col cols); [eauto | discriminate].
        * intros [E|[i Hi]]; [congruence|]. rewrite Hi. simpl. eauto. }
  assert (H : forall col, has_column df col = true <-> In col (columns df)).
  { intros col. rewrite <- P. unfold has_column.
    destruct (position col (columns df)); split; eauto; try discriminate.
    intros [i Hi]. discriminate. }
  unfold required_columns. cbn [forallb].
  rewrite andb_true_r, andb_true_iff, !H. tauto.
Qed.

Lemma process_schema_error (df : DataFrame) :
  forallb (has_column df) required_columns = false ->
  process df = ([st_error schema_message], inr tt).
Proof. intros H. unfold process, body. rewrite H. reflexivity. Qed.

Lemma process_payout_error (df : DataFrame) (e : Exn) :
  forallb (has_column df) required_columns = true ->
  clean_payout df = inl e ->
  process df = ([st_error (generic_message e)], inr tt).
Proof.
  intros H He. unfold process, body. rewrite H, He. reflexivity.
Qed.

Lemma process_rendered (df : DataFrame) (payouts : list pyfloat) :
  forallb (has_column df) required_columns = true ->
  clean_payout df = inr payouts ->
  exists average,
    average_earnings (valid_rows (clean_workDate df) payouts) = inr average
    /\ process df
       = try_except (render (valid_rows (clean_workDate df) payouts) average)
           (fun e => emit (st_error (generic_message e))).
Proof.
  intros H Hp.
  pose proof (average_earnings_value (valid_rows (clean_workDate df) payouts))
    as Ha.
  eexists. split; [exact Ha|].
  unfold process, body. rewrite H, Hp. cbn [negb].
  rewrite bind_lift_inr. cbv zeta. rewrite Ha, bind_lift_inr. reflexivity.
Qed.

Lemma process_no_rows (df : DataFrame) (payouts : list pyfloat) :
  forallb (has_column df) required_columns = true ->
  clean_payout df = inr payouts ->
  valid_rows (clean_workDate df) payouts = [] ->
  process df
  = ([st_columns 3; total_card (Fin 0); average_card 0 (Fin 0);
      st_error (generic_message "NaTType does not support strftime")],
     inr tt).
Proof.
  intros H Hp Hv.
  destruct (process_rendered df payouts H Hp) as (average & Ha & ->).
  rewrite Hv in *. rewrite render_empty.
  unfold average_earnings in Ha. simpl in Ha. injection Ha as <-.
  reflexivity.
Qed.

Lemma process_summary (df : DataFrame) (payouts : list pyfloat) :
  forallb (has_column df) required_columns = true ->
  clean_payout df = inr payouts ->
  valid_rows (clean_workDate df) payouts <> [] ->
  exists average start,
    process df
    = (full_summary (valid_rows (clean_workDate df) payouts) average start,
       inr tt).
Proof.
  intros H Hp Hv.
  destruct (process_rendered df payouts H Hp) as (average & Ha & ->).
  destruct (ts_max_dated _ (valid_rows_dated _ _) Hv) as (m & Hm & _).
  destruct (pay_period_of_most_recent _ m Hm) as (Hs & _).
  exists average. eexists.
  rewrite (render_full _ _ _ Hs). reflexivity.
Qed.

(** ** C8: the schema check *)

Lemma generic_is_not_schema (e : Exn) : generic_message e <> schema_message.
Proof. unfold generic_message, schema_message. simpl. discriminate. Qed.

(** C8. The page is the schema message alone, nothing else being rendered
    or computed, exactly when 'workDate' or 'payout' is not among the
    column names; names are compared exactly, so a name in another case
    does not count. *)
Theorem schema_error_iff_column_missing (df : DataFrame) :
  (script (Some df) = [st_error schema_message]
   <-> ~ (In "workDate" (columns df) /\ In "payout" (columns df)))
  /\ script (Some (mkFrame ["WorkDate"; "Payout"] (data df)))
     = [st_error schema_message].
Proof.
  split; [|reflexivity].
  rewrite <- has_required_columns. cbn [script].
  destruct (forallb (has_column df) required_columns) eqn:H.
  - split; [|congruence]. intros Hpage. exfalso.
    destruct (clean_payout df) as [e|payouts] eqn:Hp.
    + rewrite (process_payout_error df e H Hp) in Hpage.
      apply (generic_is_not_schema e).
      exact (f_equal (fun page => match page with
                                  | st_error m :: _ => m
                                  | _ => schema_message
                                  end) Hpage).
    + destruct (valid_rows (clean_workDate df) payouts) as [|r rs] eqn:Hv.
      * rewrite (process_no_rows df payouts H Hp Hv) in Hpage. discriminate.
      * destruct (process_summary df payouts H Hp) as (a & st & Hs).
        { rewrite Hv. discriminate. }
        rewrite Hs in Hpage. discriminate.
  - rewrite (process_schema_error df H). split; [discriminate | reflexivity].
Qed.

(** ** C10: a payout that does not convert *)

Lemma astype_float_fails (col : list cell) (c : cell) (e : Exn) :
  In c col -> float_cell c = inl e ->
  exists s, float s = None /\ astype_float col = inl (float_message s).
Proof.
  induction col as [|c0 col IH]; intros Hin Hc; [contradiction|].
  cbn [astype_float].
  destruct (float_cell c0) as [e0|x0] eqn:H0.
  - destruct c0 as [|s0]; [discriminate|]. simpl in H0.
    destruct (float s0) eqn:Hf; [discriminate|].
    injection H0 as <-. eauto.
  - destruct Hin as [->|Hin]; [congruence|].
    destruct (IH Hin Hc) as (s & Hs & ->). eauto.
Qed.

(** C10. The payout column is converted as a whole before any row is
    dropped: when the normalized payout of some row is not a float, the
    page is the generic error message alone, whatever that row's
    workDate is. *)
Theorem unparsable_payout_aborts (df : DataFrame) (i : nat) (s : string) :
  In "workDate" (columns df) -> In "payout" (columns df) ->
  nth_error (getitem df "payout") i = Some (Text s) ->
  float (re_sub_class ["$"; ","]%char s) = None ->
  exists s',
    float s' = None
    /\ script (Some df) = [st_error (generic_message (float_message s'))].
Proof.
  intros Hw Hp Hi Hf.
  assert (H : forallb (has_column df) required_columns = true)
    by (apply has_required_columns; auto).
  destruct (astype_float_fails
              (map (replace ["$"; ","]%char) (getitem df "payout"))
              (Text (re_sub_class ["$"; ","]%char s))
              (float_message (re_sub_class ["$"; ","]%char s)))
    as (s' & Hs' & He).
  - apply nth_error_In in Hi.
    apply (in_map (replace ["$"; ","]%char)) in Hi. exact Hi.
  - simpl. rewrite Hf. reflexivity.
  - exists s'. split; [exact Hs'|].
    cbn [script]. rewrite (process_payout_error df _ H He). reflexivity.
Qed.

Lemma unparsable_payout_aborts_witness :
  to_datetime (Text "17/12/2024") = NaT
  /\ exists s',
       float s' = None
       /\ script (Some (table [("Dec 17, 2024", "$50.00");
                               ("17/12/2024", "$12.5O")]))
          = [st_error (generic_message (float_message s'))].
Proof.
  split; [reflexivity|].
  apply (unparsable_payout_aborts
           (table [("Dec 17, 2024", "$50.00"); ("17/12/2024", "$12.5O")])
           1%nat "$12.5O").
  - simpl. auto.
  - simpl. auto.
  - reflexivity.
  - vm_compute. reflexivity.
Defined.

(** ** C7: currency normalization *)

Lemma re_sub_class_filter (s : string) :
  list_ascii_of_string (re_sub_class ["$"; ","]%char s)
  = filter kept (list_ascii_of_string s).
Proof.
  induction s as [|c s IH]; simpl.
  - reflexivity.
  - unfold kept at 1. rewrite orb_false_r.
    destruct (Ascii.eqb c "$" || Ascii.eqb c ","); simpl; congruence.
Qed.

(** C7. Normalizing a payout removes every '$' and ',' and keeps all
    other characters in order, and the rest is then read as a float; the
    texts "$1,234.50" and "1234.50" both give 1234.50. *)
Theorem currency_normalization (s : string) :
  list_ascii_of_string (re_sub_class ["$"; ","]%char s)
  = filter kept (list_ascii_of_string s)
  /\ clean_payout (mkFrame ["payout"] [[Text s]])
     = match float (string_of_list_ascii
                      (filter kept (list_ascii_of_string s))) with
       | Some x => inr [x]
       | None =>
           inl (float_message
                  (string_of_list_ascii
                     (filter kept (list_ascii_of_string s))))
       end
  /\ clean_payout (mkFrame ["payout"] [[Text "$1,234.50"]; [Text "1234.50"]])
     = inr [Fin (2469 # 2); Fin (2469 # 2)]
  /\ (2469 # 2 == 1234.5)%Q.
Proof.
  split; [apply re_sub_class_filter|].
  split; [|split; [vm_compute; reflexivity | reflexivity]].
  rewrite <- re_sub_class_filter, string_of_list_ascii_of_string.
  unfold clean_payout, getitem. cbn [position columns String.eqb].
  simpl. destruct (float (re_sub_class ["$"; ","]%char s)); reflexivity.
Qed.

(** ** C2 and C9: an upload without a valid row *)

(** C2. On an upload whose columns are present but which has no row with
    a valid date (no row at all, or only rows whose date does not
    parse), the pay period is computed without a guard from [NaT], the
    first two cards are rendered with zeros, and formatting the period
    raises: the page ends with the generic error message and has neither
    the pay-period card nor any group. *)
Theorem no_valid_row_faults :
  script (Some (table []))
  = [st_columns 3; total_card (Fin 0); average_card 0 (Fin 0);
     st_error (generic_message "NaTType does not support strftime")]
  /\ script (Some (table [("17/12/2024", "$100.00")]))
     = [st_columns 3; total_card (Fin 0); average_card 0 (Fin 0);
        st_error (generic_message "NaTType does not support strftime")]
  /\ most_recent_date [] = NaT
  /\ pay_period_start [] = NaT
  /\ pay_period_end [] = NaT.
Proof. repeat split; vm_compute; reflexivity. Qed.

(** C9. On the same upload the page holds part of the summary (two of
    the three cards) together with an error message. *)
Theorem partial_summary_with_error :
  let page := script (Some (table [("17/12/2024", "$100.00")])) in
  existsb is_summary_part page = true
  /\ existsb is_error page = true
  /\ In (total_card (Fin 0)) page
  /\ In (average_card 0 (Fin 0)) page
  /\ In (st_error (generic_message "NaTType does not support strftime")) page
  /\ forall a b x, ~ In (period_card a b x) page.
Proof.
  vm_compute. repeat split; auto.
  intros a b x H.
  repeat (destruct H as [H|H]; [discriminate|]). exact H.
Qed.

(** Apart from that case the page is all of the summary or one error
    message. *)
Lemma atomic_outcome (df : DataFrame) :
  (forall payouts, clean_payout df = inr payouts ->
                   In "workDate" (columns df) -> In "payout" (columns df) ->
                   valid_rows (clean_workDate df) payouts <> []) ->
  (exists msg, script (Some df) = [st_error msg])
  \/ (exists rows average start,
        script (Some df) = full_summary rows average start).
Proof.
  intros Hne. cbn [script].
  destruct (forallb (has_column df) required_columns) eqn:H.
  - destruct (clean_payout df) as [e|payouts] eqn:Hp.
    + left. rewrite (process_payout_error df e H Hp). cbn [fst]. eauto.
    + right. pose proof H as Hc. apply has_required_columns in Hc.
      destruct (process_summary df payouts H Hp) as (a & st & Hs).
      { apply Hne; tauto. }
      rewrite Hs. cbn [fst]. eauto.
  - left. rewrite (process_schema_error df H). cbn [fst]. eauto.
Qed.


(** ** C1: the pay-period window *)

Lemma tuesday_before (m : Z) :
  let dow := (m + 6) mod 7 in
  let start := if 1 <=? dow then m - (dow - 1) else m - 6 in
  (start + 6) mod 7 = 1 /\ (start + 6 + 6) mod 7 = 0 /\ start <= m <= start + 6.
Proof.
  intros dow start. subst start.
  pose proof (Z.mod_pos_bound (m + 6) 7 ltac:(lia)) as Hb. fold dow in Hb.
  pose proof (Z.div_mod (m + 6) 7 ltac:(lia)) as Hd. fold dow in Hd.
  destruct (Z.leb_spec 1 dow) as [Hge|Hlt].
  - split; [|split; [|lia]].
    + symmetry. apply (Z.mod_unique _ _ ((m + 6) / 7)); lia.
    + symmetry. apply (Z.mod_unique _ _ ((m + 6) / 7 + 1)); lia.
  - assert (dow = 0) by lia. split; [|split; [|lia]].
    + symmetry. apply (Z.mod_unique _ _ ((m + 6) / 7 - 1)); lia.
    + symmetry. apply (Z.mod_unique _ _ ((m + 6) / 7)); lia.
Qed.

(** C1. For a non-empty frame of rows with valid dates, the most recent
    date [mr] is the maximum of the dates; with [dow] its day of the week
    (Monday 0), the period starts [dow - 1] days before [mr] when
    [dow >= 1] and 6 days before when [dow = 0], and ends 6 days after
    its start; the start is a Tuesday, the end the following Monday, the
    period has 7 days and [mr] lies in it. *)
Theorem pay_period_window (df : list Row) :
  dated df -> df <> [] ->
  exists mr start,
    most_recent_date df = Ts mr
    /\ In mr (dt_date df) /\ Forall (fun o => o <= mr) (dt_date df)
    /\ day_of_week df = Some ((mr + 6) mod 7)
    /\ start = (if 1 <=? (mr + 6) mod 7
                then mr - ((mr + 6) mod 7 - 1) else mr - 6)
    /\ pay_period_start df = Ts start
    /\ pay_period_end df = Ts (start + 6)
    /\ weekday (Ts start) = Some 1
    /\ weekday (Ts (start + 6)) = Some 0
    /\ (start + 6) - start + 1 = 7
    /\ start <= mr <= start + 6.
Proof.
  intros Hd Hne.
  destruct (ts_max_dated df Hd Hne) as (m & Hm & Hin & Hall).
  destruct (pay_period_of_most_recent df m Hm) as (Hs & He).
  destruct (tuesday_before m) as (Htue & Hmon & Hrange).
  fold (most_recent_date df) in Hm.
  exists m, (if 1 <=? (m + 6) mod 7 then m - ((m + 6) mod 7 - 1) else m - 6).
  split; [exact Hm|]. split; [exact Hin|]. split; [exact Hall|].
  split; [unfold day_of_week; rewrite Hm; reflexivity|].
  split; [reflexivity|]. split; [exact Hs|]. split; [exact He|].
  split; [simpl; f_equal; exact Htue|].
  split; [simpl; f_equal; exact Hmon|].
  split; [lia | exact Hrange].
Qed.

Lemma pay_period_window_witness :
  let df := [mkRow (Ts (ymd2ord 2024 12 10)) (Fin 1);
             mkRow (Ts (ymd2ord 2024 12 16)) (Fin 2)] in
  (dated df /\ df <> [])
  /\ exists mr start,
    most_recent_date df = Ts mr
    /\ In mr (dt_date df) /\ Forall (fun o => o <= mr) (dt_date df)
    /\ day_of_week df = Some ((mr + 6) mod 7)
    /\ start = (if 1 <=? (mr + 6) mod 7
                then mr - ((mr + 6) mod 7 - 1) else mr - 6)
    /\ pay_period_start df = Ts start
    /\ pay_period_end df = Ts (start + 6)
    /\ weekday (Ts start) = Some 1
    /\ weekday (Ts (start + 6)) = Some 0
    /\ (start + 6) - start + 1 = 7
    /\ start <= mr <= start + 6.
Proof.
  intros df.
  assert (Hd : dated df).
  { repeat constructor; eexists; reflexivity. }
  assert (Hne : df <> []) by discriminate.
  split; [split; assumption|].
  exact (pay_period_window df Hd Hne).
Defined.

(** The two scenarios of the pay period: a Wednesday and a Monday. *)
Example pay_period_wednesday :
  let df := [mkRow (to_datetime (Text "Dec 18, 2024")) (Fin 1)] in
  day_of_week df = Some 2
  /\ pay_period_start df = to_datetime (Text "Dec 17, 2024")
  /\ pay_period_end df = to_datetime (Text "Dec 23, 2024").
Proof. vm_compute. auto. Qed.

Example pay_period_monday :
  let df := [mkRow (to_datetime (Text "Dec 16, 2024")) (Fin 1)] in
  day_of_week df = Some 0
  /\ pay_period_start df = to_datetime (Text "Dec 10, 2024")
  /\ pay_period_end df = to_datetime (Text "Dec 16, 2024").
Proof. vm_compute. auto. Qed.

(** ** C5: order of the rows and of the groups *)

Lemma filter_filter_and {A} (p q : A -> bool) (l : list A) :
  filter p (filter q l) = filter (fun x => q x && p x) l.
Proof.
  induction l as [|x l IH]; simpl; [reflexivity|].
  destruct (q x); simpl; [destruct (p x)|]; congruence.
Qed.

Lemma unique_first_seen (seen l : list Z) :
  unique seen l
  = filter (fun k => negb (existsb (Z.eqb k) seen)) (first_seen_order l).
Proof.
  revert seen. induction l as [|k l IH]; intros seen; simpl.
  - reflexivity.
  - destruct (existsb (Z.eqb k) seen) eqn:E; simpl.
    + rewrite IH, filter_filter_and. apply filter_ext. intros y.
      destruct (Z.eqb_spec y k) as [->|N]; simpl; [|reflexivity].
      rewrite E. reflexivity.
    + f_equal. rewrite IH, filter_filter_and. apply filter_ext. intros y.
      simpl. rewrite negb_orb. reflexivity.
Qed.

Lemma unique_nil (l : list Z) : unique [] l = first_seen_order l.
Proof.
  rewrite unique_first_seen. simpl.
  induction (first_seen_order l) as [|x xs IH]; simpl; congruence.
Qed.

Lemma first_seen_order_In (l : list Z) (x : Z) :
  In x (first_seen_order l) <-> In x l.
Proof.
  induction l as [|y l IH]; simpl; [tauto|].
  rewrite filter_In, IH.
  destruct (Z.eqb_spec x y) as [->|N]; simpl.
  - tauto.
  - intuition congruence.
Qed.

Lemma first_seen_order_NoDup (l : list Z) : NoDup (first_seen_order l).
Proof.
  induction l as [|y l IH]; simpl; constructor.
  - rewrite filter_In, Z.eqb_refl. simpl. intros [_ H]. discriminate.
  - apply NoDup_filter. exact IH.
Qed.


Lemma insert_row_sorted (r : Row) (df : list Row) :
  (exists o, workDate r = Ts o) -> dated df ->
  date_descending df -> date_descending (insert_row r df).
Proof.
  intros [o Ho] Hd Hs. unfold date_descending in *.
  induction df as [|x df IH]; simpl.
  - repeat constructor.
  - inversion Hd as [|? ? [ox Hox] Hd']; subst.
    inversion Hs as [|? ? Hs' Hall]; subst.
    destruct (later (workDate x) (workDate r)) eqn:L.
    + constructor; [apply IH; assumption|].
      eapply Permutation_Forall; [apply insert_row_perm|].
      constructor; [|exact Hall].
      exists ox, o. rewrite Hox, Ho in *. simpl in L.
      apply Z.ltb_lt in L. repeat split; auto; lia.
    + rewrite Hox, Ho in L. simpl in L. apply Z.ltb_ge in L.
      constructor; [exact Hs|].
      constructor.
      * exists o, ox. auto.
      * eapply Forall_impl; [|exact Hall]. simpl.
        intros y (x1 & y1 & H1 & H2 & H3).
        exists o, y1. rewrite Hox in H1. injection H1 as <-.
        repeat split; auto; lia.
Qed.

Lemma sort_values_sorted (df : list Row) :
  dated df -> date_descending (sort_values df).
Proof.
  induction 1 as [|r df Hr Hd IH]; simpl.
  - constructor.
  - apply insert_row_sorted; auto.
    eapply Permutation_Forall; [apply sort_values_perm | exact Hd].
Qed.


(** The scenario of three rows on two days. *)
Example three_rows_two_days :
  script (Some (table [("Dec 17, 2024", "$100.00");
                       ("Dec 17, 2024", "$50.00");
                       ("Dec 10, 2024", "$200.00")]))
  = [st_columns 3;
     total_card (Fin 350);
     average_card 2 (Fin (350 # 2));
     period_card (ymd2ord 2024 12 17) (ymd2ord 2024 12 23) (Fin 150);
     separator;
     expander (ymd2ord 2024 12 17) (Fin 150)
       [mkRow (Ts (ymd2ord 2024 12 17)) (Fin 100);
        mkRow (Ts (ymd2ord 2024 12 17)) (Fin 50)];
     expander (ymd2ord 2024 12 10) (Fin 200)
       [mkRow (Ts (ymd2ord 2024 12 10)) (Fin 200)]].
Proof. vm_compute. reflexivity. Qed.

(** ** C4: the total and the totals of the groups *)

#[local] Instance feq_equivalence : Equivalence feq.
Proof.
  split.
  - intros [q|s|]; simpl; auto. reflexivity.
  - intros [q|s|] [q'|s'|]; simpl; auto. intros H; symmetry; exact H.
  - intros [q|s|] [q'|s'|] [q''|s''|]; simpl; try tauto; try congruence.
    intros H1 H2. rewrite H1. exact H2.
Qed.

#[local] Instance fadd_proper : Proper (feq ==> feq ==> feq) fadd.
Proof.
  intros [a|s|] [a'|s'|] Ha [b|t|] [b'|t'|] Hb; simpl in *;
    try tauto; try congruence.
  - rewrite Ha, Hb. reflexivity.
  - subst. destruct (Bool.eqb s' t'); simpl; auto.
Qed.









(** Two disjoint selections of rows make up the selection by either. *)
Lemma filter_disjoint_perm {A} (p q : A -> bool) (l : list A) :
  (forall x, p x = true -> q x = true -> False) ->
  Permutation (filter p l ++ filter q l) (filter (fun x => p x || q x) l).
Proof.
  intros D. induction l as [|x l IH]; simpl; [constructor|].
  destruct (p x) eqn:P, (q x) eqn:Q; simpl.
  - destruct (D x P Q).
  - constructor. exact IH.
  - eapply perm_trans; [apply Permutation_sym, Permutation_middle|].
    constructor. exact IH.
  - exact IH.
Qed.

Lemma groups_of_keys (ks : list Z) (df : list Row) :
  NoDup ks ->
  Permutation (List.concat (map (fun k => filter (on_day k) df) ks))
              (filter (fun r => existsb (fun k => on_day k r) ks) df).
Proof.
  induction 1 as [|k ks Hk Hnd IH]; simpl.
  - induction df; simpl; auto.
  - eapply perm_trans; [apply Permutation_app_head, IH|].
    apply filter_disjoint_perm. intros r Hr He.
    apply existsb_exists in He. destruct He as (k' & Hin & Hr').
    unfold on_day in *. destruct (workDate r) as [|o]; [discriminate|].
    apply Z.eqb_eq in Hr, Hr'. subst. contradiction.
Qed.

Lemma dt_date_In (df : list Row) (o : Z) :
  In o (dt_date df) <-> exists r, In r df /\ workDate r = Ts o.
Proof.
  induction df as [|x df IH]; simpl.
  - split; [tauto | intros (r & [] & _)].
  - destruct (workDate x) as [|ox] eqn:E; simpl; rewrite IH.
    + split.
      * intros (r & Hr & Ho). eauto.
      * intros (r & [->|Hr] & Ho); [congruence | eauto].
    + split.
      * intros [->|(r & Hr & Ho)]; eauto.
      * intros (r & [->|Hr] & Ho); [left; congruence | eauto].
Qed.

(** The groups of a frame whose rows all have a date hold every row
    once. *)
Lemma groups_partition (df : list Row) :
  dated df -> Permutation (List.concat (map snd (grouped df))) df.
Proof.
  intros Hd. unfold grouped, groupby. rewrite map_map. cbn [snd].
  eapply perm_trans.
  - apply groups_of_keys. rewrite unique_nil. apply first_seen_order_NoDup.
  - replace (filter _ df) with (filter (fun _ => true) df).
    + clear. induction df; simpl; auto.
    + apply filter_ext_in. intros r Hr. symmetry.
      unfold dated in Hd. rewrite Forall_forall in Hd.
      destruct (Hd r Hr) as [o Ho].
      apply existsb_exists. exists o. split.
      * rewrite unique_nil, first_seen_order_In, dt_date_In. eauto.
      * unfold on_day. rewrite Ho. apply Z.eqb_refl.
Qed.


(** ** C6: a row whose date does not parse *)

Lemma getitem_field (cols : list string) (rows : list (list cell))
  (col : string) :
  In col cols ->
  getitem (mkFrame cols rows) col = map (field cols col) rows.
Proof.
  intros Hin. unfold getitem, field. cbn [columns data].
  destruct (position col cols) as [i|] eqn:E; [reflexivity|].
  exfalso. induction cols as [|c cols IH]; [contradiction|].
  simpl in E. destruct (String.eqb_spec col c) as [->|N]; [discriminate|].
  destruct Hin as [->|Hin]; [congruence|].
  destruct (position col cols); [discriminate | auto].
Qed.

Lemma astype_float_app (a b : list cell) :
  astype_float (a ++ b)
  = match astype_float a with
    | inl e => inl e
    | inr xs =>
        match astype_float b with
        | inl e => inl e
        | inr ys => inr (xs ++ ys)
        end
    end.
Proof.
  induction a as [|c a IH]; simpl.
  - destruct (astype_float b); reflexivity.
  - destruct (float_cell c); [reflexivity|]. rewrite IH.
    destruct (astype_float a); [reflexivity|].
    destruct (astype_float b); reflexivity.
Qed.

Lemma astype_float_length (col : list cell) (xs : list pyfloat) :
  astype_float col = inr xs -> List.length xs = List.length col.
Proof.
  revert xs. induction col as [|c col IH]; simpl; intros xs H.
  - injection H as <-. reflexivity.
  - destruct (float_cell c); [discriminate|].
    destruct (astype_float col); [discriminate|].
    injection H as <-. simpl. f_equal. apply IH. reflexivity.
Qed.






(** ** Examples of the library models *)

Example float_examples :
  map float ["1234.50"; "  -1_000.25e1 "; ".5"; "7."; "1e-2"; "-Infinity";
             "NAN"; "."; "1_"; "1__0"; "abc"; "1e"; "$5"; "1,0"; "1.5x"]
  = [Some (Fin (2469 # 2)); Some (Fin (-20005 # 2)); Some (Fin (1 # 2));
     Some (Fin 7); Some (Fin (1 # 100)); Some (Inf true); Some NaN;
     None; None; None; None; None; None; None; None].
Proof. vm_compute. reflexivity. Qed.

Example to_datetime_examples :
  map (fun s => to_datetime (Text s))
      ["Dec 16, 2024"; "dec  7, 2024"; "Dec 07, 2024"; "Feb 29, 2024";
       "Dec 32, 2024"; "Feb 29, 2023"; "Dec 17 2024"; "December 17, 2024";
       "Dec 17, 20245"; " Dec 17, 2024"; "Dec 0, 2024"; "Jan 01, 0000";
       "2024-12-17"]
  = [Ts (ymd2ord 2024 12 16); Ts (ymd2ord 2024 12 7); Ts (ymd2ord 2024 12 7);
     Ts (ymd2ord 2024 2 29);
     NaT; NaT; NaT; NaT; NaT; NaT; NaT; NaT; NaT]
  /\ weekday (Ts (ymd2ord 2024 12 16)) = Some 0
  /\ weekday (Ts 1) = Some 0.
Proof. vm_compute. auto. Qed.

Example missing_payout_is_skipped :
  script (Some (mkFrame ["id"; "payout"; "workDate"]
                  [[Text "a"; Text "1,000"; Text "Dec 16, 2024"];
                   [Text "b"; NA; Text "Dec 18, 2024"];
                   [Text "c"; Text "3"]]))
  = [st_columns 3;
     total_card (Fin 1000);
     average_card 2 (Fin (1000 # 2));
     period_card (ymd2ord 2024 12 17) (ymd2ord 2024 12 23) (Fin 0);
     separator;
     expander (ymd2ord 2024 12 18) (Fin 0)
       [mkRow (Ts (ymd2ord 2024 12 18)) NaN];
     expander (ymd2ord 2024 12 16) (Fin 1000)
       [mkRow (Ts (ymd2ord 2024 12 16)) (Fin 1000)]].
Proof. vm_compute. reflexivity. Qed.

(* ===================================================================== *)
(** * Further properties of the script *)
(* ===================================================================== *)

(** ** The outcomes of an upload *)


Lemma process_summary_rows (df : DataFrame) (payouts : list pyfloat) :
  forallb (has_column df) required_columns = true ->
  clean_payout df = inr payouts ->
  valid_rows (clean_workDate df) payouts <> [] ->
  exists start,
    pay_period_start (valid_rows (clean_workDate df) payouts) = Ts start
    /\ process df
       = (full_summary (valid_rows (clean_workDate df) payouts)
            (match number_of_groups (valid_rows (clean_workDate df) payouts)
             with
             | O => Fin 0
             | S _ =>
                 fdivn
                   (total_earnings (valid_rows (clean_workDate df) payouts))
                   (number_of_groups (valid_rows (clean_workDate df) payouts))
             end)
            start,
          inr tt).
Proof.
  intros H Hp Hv.
  destruct (process_rendered df payouts H Hp) as (average & Ha & ->).
  rewrite average_earnings_value in Ha. injection Ha as <-.
  destruct (ts_max_dated _ (valid_rows_dated _ _) Hv) as (m & Hm & _).
  destruct (pay_period_of_most_recent _ m Hm) as (Hs & _).
  eexists. split; [exact Hs|].
  rewrite (render_full _ _ _ Hs). reflexivity.
Qed.


(** ** The total of the pay period (lines 71 to 73) *)


Lemma dated_In (df : list Row) (r : Row) :
  dated df -> In r df ->
  exists o, workDate r = Ts o /\ In o (dt_date df).
Proof.
  intros Hd Hr. unfold dated in Hd. rewrite Forall_forall in Hd.
  destruct (Hd r Hr) as [o Ho]. exists o. split; [exact Ho|].
  apply dt_date_In. eauto.
Qed.

(** X2. In a non-empty frame of rows with valid dates, the upper bound of
    the pay-period filter excludes nothing: a row is counted in the pay
    period exactly when its date is on or after the period's first day,
    which is at most 6 days before the most recent date; the rows of
    the most recent date are always counted. *)
Theorem pay_period_counts_rows_from_start (df : list Row) :
  dated df -> df <> [] ->
  exists mr start,
    most_recent_date df = Ts mr
    /\ pay_period_start df = Ts start
    /\ mr - 6 <= start <= mr
    /\ Forall (fun r => exists o, workDate r = Ts o
                                  /\ in_period df r = (start <=? o)) df
    /\ filter (in_period df) df
       = filter (fun r => ts_leb (Ts start) (workDate r)) df
    /\ Forall (fun r => in_period df r = true)
              (filter (on_day mr) df).
Proof.
  intros Hd Hne.
  destruct (ts_max_dated df Hd Hne) as (m & Hm & Hin & Hall).
  fold (most_recent_date df) in Hm.
  destruct (pay_period_of_most_recent df m Hm) as (Hs & He).
  destruct (tuesday_before m) as (_ & _ & Hrange).
  cbv zeta in Hs, He, Hrange.
  set (start := if 1 <=? (m + 6) mod 7
                then m - ((m + 6) mod 7 - 1) else m - 6) in *.
  assert (Hlo : m - 6 <= start).
  { subst start.
    pose proof (Z.mod_pos_bound (m + 6) 7 ltac:(lia)).
    destruct (1 <=? (m + 6) mod 7); lia. }
  assert (Hrow : forall r, In r df ->
                 exists o, workDate r = Ts o
                           /\ in_period df r = (start <=? o)).
  { intros r Hr. destruct (dated_In df r Hd Hr) as (o & Ho & Hio).
    exists o. split; [exact Ho|].
    rewrite Forall_forall in Hall. specialize (Hall o Hio).
    unfold in_period. rewrite Hs, He, Ho. simpl.
    replace (o <=? start + 6) with true; [apply andb_true_r|].
    symmetry. apply Z.leb_le. lia. }
  exists m, start.
  split; [exact Hm|]. split; [exact Hs|]. split; [lia|].
  split; [apply Forall_forall; exact Hrow|].
  split.
  - apply filter_ext_in. intros r Hr.
    destruct (Hrow r Hr) as (o & Ho & ->). rewrite Ho. reflexivity.
  - apply Forall_forall. intros r Hr. apply filter_In in Hr.
    destruct Hr as [Hr Hday].
    destruct (Hrow r Hr) as (o & Ho & ->).
    unfold on_day in Hday. rewrite Ho in Hday. apply Z.eqb_eq in Hday.
    apply Z.leb_le. lia.
Qed.

Lemma pay_period_counts_rows_from_start_witness :
  let df := [mkRow (Ts (ymd2ord 2024 12 18)) (Fin 7);
             mkRow (Ts (ymd2ord 2024 12 17)) (Fin 5);
             mkRow (Ts (ymd2ord 2024 12 16)) (Fin 3)] in
  exists mr start,
    most_recent_date df = Ts mr
    /\ pay_period_start df = Ts start
    /\ mr - 6 <= start <= mr
    /\ Forall (fun r => exists o, workDate r = Ts o
                                  /\ in_period df r = (start <=? o)) df
    /\ filter (in_period df) df
       = filter (fun r => ts_leb (Ts start) (workDate r)) df
    /\ Forall (fun r => in_period df r = true)
              (filter (on_day mr) df).
Proof.
  intros df. apply (pay_period_counts_rows_from_start df).
  - repeat constructor; eexists; reflexivity.
  - discriminate.
Defined.

(** Grouping commutes with a selection of rows by day. *)






(** ** The page of a summary (lines 85 to 133) *)

Lemma process_cases (df : DataFrame) :
  process df = ([st_error schema_message], inr tt)
  \/ (exists e, process df = ([st_error (generic_message e)], inr tt))
  \/ process df
     = ([st_columns 3; total_card (Fin 0); average_card 0 (Fin 0);
         st_error (generic_message "NaTType does not support strftime")],
        inr tt)
  \/ (exists payouts start,
        clean_payout df = inr payouts
        /\ valid_rows (clean_workDate df) payouts <> []
        /\ pay_period_start (valid_rows (clean_workDate df) payouts)
           = Ts start
        /\ process df
           = (full_summary (valid_rows (clean_workDate df) payouts)
                (match number_of_groups
                         (valid_rows (clean_workDate df) payouts) with
                 | O => Fin 0
                 | S _ =>
                     fdivn
                       (total_earnings
                          (valid_rows (clean_workDate df) payouts))
                       (number_of_groups
                          (valid_rows (clean_workDate df) payouts))
                 end)
                start,
              inr tt)).
Proof.
  destruct (forallb (has_column df) required_columns) eqn:H.
  - destruct (clean_payout df) as [e|payouts] eqn:Hp.
    + right. left. exists e. exact (process_payout_error df e H Hp).
    + destruct (valid_rows (clean_workDate df) payouts) as [|r rs] eqn:Hv.
      * right. right. left. exact (process_no_rows df payouts H Hp Hv).
      * right. right. right.
        destruct (process_summary_rows df payouts H Hp) as (st & Hst & Hs).
        { rewrite Hv. discriminate. }
        exists payouts, st. rewrite Hv in *.
        split; [reflexivity|]. split; [discriminate|]. split; assumption.
  - left. exact (process_schema_error df H).
Qed.

Lemma expander_days_full_summary rows average start :
  expander_days (full_summary rows average start) = map fst (grouped rows).
Proof.
  unfold full_summary, expander_days. rewrite flat_map_app. simpl.
  induction (grouped rows) as [|g l IH]; simpl; congruence.
Qed.


Lemma dt_date_descending (df : list Row) :
  date_descending df -> StronglySorted (fun a b => b <= a) (dt_date df).
Proof.
  unfold date_descending.
  induction 1 as [|r df Hs IH Hall]; simpl; [constructor|].
  destruct (workDate r) as [|o] eqn:E; [exact IH|].
  constructor; [exact IH|].
  apply Forall_forall. intros k Hk. apply dt_date_In in Hk.
  destruct Hk as (r' & Hr' & Hk).
  rewrite Forall_forall in Hall.
  destruct (Hall r' Hr') as (x & y & Hx & Hy & Hle).
  assert (x = o) by congruence. assert (y = k) by congruence. lia.
Qed.

Lemma first_seen_order_strict (l : list Z) :
  StronglySorted (fun a b => b <= a) l ->
  StronglySorted (fun a b => b < a) (first_seen_order l).
Proof.
  induction 1 as [|x l Hs IH Hall]; simpl; [constructor|].
  constructor.
  - clear Hall. induction IH as [|y ys Hys IHys Hy]; simpl; [constructor|].
    destruct (negb (y =? x)); [|exact IHys].
    constructor; [exact IHys|].
    apply Forall_forall. intros z Hz. apply filter_In in Hz.
    rewrite Forall_forall in Hy. apply Hy. tauto.
  - apply Forall_forall. intros y Hy. apply filter_In in Hy.
    destruct Hy as [Hy Hne]. rewrite first_seen_order_In in Hy.
    rewrite Forall_forall in Hall. specialize (Hall y Hy).
    apply negb_true_iff, Z.eqb_neq in Hne. lia.
Qed.

Lemma grouped_days_strict (dates : list Timestamp) (payouts : list pyfloat) :
  StronglySorted (fun a b => b < a)
                 (map fst (grouped (valid_rows dates payouts))).
Proof.
  unfold grouped, groupby. rewrite map_map. simpl. rewrite map_id.
  rewrite unique_nil. apply first_seen_order_strict, dt_date_descending.
  apply sort_values_sorted, dropna_dated.
Qed.

(** X4. On every page the expanders come newest day first, each day
    once: their days are strictly decreasing down the page. *)
Theorem expanders_newest_first (df : DataFrame) :
  StronglySorted (fun a b => b < a) (expander_days (script (Some df))).
Proof.
  cbn [script].
  destruct (process_cases df)
    as [-> | [(e & ->) | [-> | (p & st & _ & _ & _ & ->)]]];
    cbn [fst]; try (simpl; constructor).
  rewrite expander_days_full_summary. apply grouped_days_strict.
Qed.







(** ** The order of the uploaded rows *)








(** ** Payout texts (line 31) *)

Lemma astype_float_all (col : list cell) :
  Forall (fun c => exists x, float_cell c = inr x) col ->
  exists xs, astype_float col = inr xs.
Proof.
  induction 1 as [|c col [x Hx] _ (xs & IH)]; simpl; [eauto|].
  rewrite Hx, IH. eauto.
Qed.

(** X8. The error message names the first payout, in file order, that
    is not a float, as the text left after '$' and ',' are removed, and
    nothing else is on the page. *)
Theorem first_bad_payout_is_reported
  (cols : list string) (d1 d2 : list (list cell)) (row : list cell)
  (s : string) :
  In "workDate" cols -> In "payout" cols ->
  Forall (fun r => exists x,
            float_cell (replace ["$"; ","]%char (field cols "payout" r))
            = inr x) d1 ->
  field cols "payout" row = Text s ->
  float (re_sub_class ["$"; ","]%char s) = None ->
  script (Some (mkFrame cols (d1 ++ row :: d2)))
  = [st_error (generic_message
                 (float_message (re_sub_class ["$"; ","]%char s)))].
Proof.
  intros Hw Hp Hd1 Hrow Hf.
  set (df := mkFrame cols (d1 ++ row :: d2)).
  assert (H : forallb (has_column df) required_columns = true)
    by (apply has_required_columns; auto).
  assert (He : clean_payout df
               = inl (float_message (re_sub_class ["$"; ","]%char s))).
  { unfold clean_payout, df. rewrite getitem_field by exact Hp.
    rewrite !map_app, astype_float_app. cbn [map].
    destruct (astype_float_all
                (map (replace ["$"; ","]%char)
                     (map (field cols "payout") d1))) as (xs & ->).
    - rewrite Forall_map, Forall_map. exact Hd1.
    - rewrite Hrow. cbn [astype_float replace float_cell].
      rewrite Hf. reflexivity. }
  cbn [script]. rewrite (process_payout_error df _ H He). reflexivity.
Qed.

Lemma first_bad_payout_is_reported_witness :
  script (Some (mkFrame ["workDate"; "payout"]
                  ([[Text "Dec 17, 2024"; Text "$50.00"]]
                   ++ [Text "Dec 16, 2024"; Text "$1,2x"]
                   :: [[Text "Dec 10, 2024"; Text "abc"]])))
  = [st_error (generic_message
                 (float_message (re_sub_class ["$"; ","]%char "$1,2x")))].
Proof.
  apply (first_bad_payout_is_reported ["workDate"; "payout"]
           [[Text "Dec 17, 2024"; Text "$50.00"]]
           [[Text "Dec 10, 2024"; Text "abc"]]
           [Text "Dec 16, 2024"; Text "$1,2x"] "$1,2x").
  - simpl. auto.
  - simpl. auto.
  - constructor; [|constructor]. exists (Fin 50). vm_compute. reflexivity.
  - reflexivity.
  - vm_compute. reflexivity.
Defined.

(** X9. The characters '$' and ',' are ignored wherever they stand: two
    payout texts that differ only in them convert alike (to the same
    float, or to the same error). *)
Theorem currency_marks_are_ignored (s1 s2 : string) :
  filter kept (list_ascii_of_string s1)
  = filter kept (list_ascii_of_string s2) ->
  float_cell (replace ["$"; ","]%char (Text s1))
  = float_cell (replace ["$"; ","]%char (Text s2)).
Proof.
  intros H. rewrite <- !re_sub_class_filter in H.
  apply (f_equal string_of_list_ascii) in H.
  rewrite !string_of_list_ascii_of_string in H.
  cbn [replace]. rewrite H. reflexivity.
Qed.

Lemma currency_marks_are_ignored_witness :
  float_cell (replace ["$"; ","]%char (Text "$1,234.50"))
  = float_cell (replace ["$"; ","]%char (Text "12,34.5$0")).
Proof.
  apply (currency_marks_are_ignored "$1,234.50" "12,34.5$0").
  reflexivity.
Defined.

(** ** One more row *)





(** ** Printing a day and reading it back (lines 35, 117 and 130) *)

Lemma days_before_year_parts (a b c e : Z) :
  0 <= a -> 0 <= b <= 3 -> 0 <= c <= 24 -> 0 <= e <= 3 ->
  days_before_year (400 * a + 100 * b + 4 * c + e + 1)
  = DI400Y * a + DI100Y * b + DI4Y * c + 365 * e.
Proof.
  intros Ha Hb Hc He. unfold days_before_year.
  change DI400Y with 146097. change DI100Y with 36524. change DI4Y with 1461.
  cbv zeta.
  replace (400 * a + 100 * b + 4 * c + e + 1 - 1)
    with (400 * a + 100 * b + 4 * c + e) by lia.
  assert (E4 : (400 * a + 100 * b + 4 * c + e) / 4 = 100 * a + 25 * b + c)
    by (symmetry; apply (Z.div_unique _ _ _ e); lia).
  assert (E100 : (400 * a + 100 * b + 4 * c + e) / 100 = 4 * a + b)
    by (symmetry; apply (Z.div_unique _ _ _ (4 * c + e)); lia).
  assert (E400 : (400 * a + 100 * b + 4 * c + e) / 400 = a)
    by (symmetry; apply (Z.div_unique _ _ _ (100 * b + 4 * c + e)); lia).
  rewrite E4, E100, E400. lia.
Qed.

Lemma is_leap_parts (a b c e : Z) :
  0 <= a -> 0 <= b <= 3 -> 0 <= c <= 24 -> 0 <= e <= 3 ->
  is_leap (400 * a + 100 * b + 4 * c + e + 1)
  = (e =? 3) && (negb (c =? 24) || (b =? 3)).
Proof.
  intros Ha Hb Hc He. unfold is_leap.
  set (y := 400 * a + 100 * b + 4 * c + e + 1).
  assert (M4 : y mod 4 = (e + 1) mod 4).
  { unfold y. replace (400 * a + 100 * b + 4 * c + e + 1)
      with ((e + 1) + (100 * a + 25 * b + c) * 4) by lia.
    apply Z.mod_add. lia. }
  assert (M100 : y mod 100 = (4 * c + e + 1) mod 100).
  { unfold y. replace (400 * a + 100 * b + 4 * c + e + 1)
      with ((4 * c + e + 1) + (4 * a + b) * 100) by lia.
    apply Z.mod_add. lia. }
  assert (M400 : y mod 400 = (100 * b + 4 * c + e + 1) mod 400).
  { unfold y. replace (400 * a + 100 * b + 4 * c + e + 1)
      with ((100 * b + 4 * c + e + 1) + a * 400) by lia.
    apply Z.mod_add. lia. }
  rewrite M4, M100, M400.
  destruct (Z.eqb_spec e 3) as [->|Ne].
  - change ((3 + 1) mod 4 =? 0) with true. cbn [andb].
    destruct (Z.eqb_spec c 24) as [->|Nc].
    + change ((4 * 24 + 3 + 1) mod 100 =? 0) with true. cbn [negb orb].
      destruct (Z.eqb_spec b 3) as [->|Nb]; [reflexivity|].
      apply Z.eqb_neq. rewrite Z.mod_small by lia. lia.
    + cbn [negb orb].
      replace ((4 * c + 3 + 1) mod 100 =? 0) with false; [reflexivity|].
      symmetry. apply Z.eqb_neq. rewrite Z.mod_small by lia. lia.
  - replace ((e + 1) mod 4 =? 0) with false; [reflexivity|].
    symmetry. apply Z.eqb_neq. rewrite Z.mod_small by lia. lia.
Qed.

Lemma month_and_day_checked (leapyear : bool) :
  forallb (month_and_day_ok leapyear) (map Z.of_nat (seq 0 365)) = true.
Proof. destruct leapyear; vm_compute; reflexivity. Qed.

Lemma month_and_day_spec (n : Z) (leapyear : bool) :
  0 <= n <= 364 -> month_and_day_ok leapyear n = true.
Proof.
  intros Hn.
  pose proof (month_and_day_checked leapyear) as H.
  rewrite forallb_forall in H. apply H.
  apply in_map_iff. exists (Z.to_nat n). split; [lia|].
  apply in_seq. lia.
Qed.

Lemma ord2ymd_spec (o : Z) :
  1 <= o ->
  let '(y, m, d) := ord2ymd o in
  1 <= y /\ 1 <= m <= 12 /\ 1 <= d <= days_in_month y m
  /\ ymd2ord y m d = o.
Proof.
  intros Ho. unfold ord2ymd.
  change DI400Y with 146097. change DI100Y with 36524. change DI4Y with 1461.
  cbv zeta.
  set (n0 := o - 1).
  pose proof (Z.div_mod n0 146097 ltac:(lia)) as D1.
  pose proof (Z.mod_pos_bound n0 146097 ltac:(lia)) as B1.
  assert (A0 : 0 <= n0 / 146097) by (apply Z.div_pos; lia).
  set (a := n0 / 146097) in *. set (r1 := n0 mod 146097) in *.
  pose proof (Z.div_mod r1 36524 ltac:(lia)) as D2.
  pose proof (Z.mod_pos_bound r1 36524 ltac:(lia)) as B2.
  assert (A1 : 0 <= r1 / 36524) by (apply Z.div_pos; lia).
  set (b := r1 / 36524) in *. set (r2 := r1 mod 36524) in *.
  pose proof (Z.div_mod r2 1461 ltac:(lia)) as D3.
  pose proof (Z.mod_pos_bound r2 1461 ltac:(lia)) as B3.
  assert (A2 : 0 <= r2 / 1461) by (apply Z.div_pos; lia).
  set (c := r2 / 1461) in *. set (r3 := r2 mod 1461) in *.
  pose proof (Z.div_mod r3 365 ltac:(lia)) as D4.
  pose proof (Z.mod_pos_bound r3 365 ltac:(lia)) as B4.
  assert (A3 : 0 <= r3 / 365) by (apply Z.div_pos; lia).
  set (e := r3 / 365) in *. set (n := r3 mod 365) in *.
  assert (Hb : b <= 4) by lia.
  assert (Hc : c <= 24) by lia.
  assert (He : e <= 4) by lia.
  destruct (Z.eqb_spec b 4) as [Eb|Nb].
  { (* the last day of a 400-year cycle *)
    rewrite orb_true_r.
    assert (r2 = 0) by lia. assert (c = 0) by lia. assert (e = 0) by lia.
    replace (a * 400 + 1 + b * 100 + c * 4 + e - 1)
      with (400 * a + 100 * 3 + 4 * 24 + 3 + 1) by lia.
    unfold ymd2ord, days_before_month, days_in_month.
    rewrite days_before_year_parts, is_leap_parts by lia.
    change DI400Y with 146097. change DI100Y with 36524.
    change DI4Y with 1461.
    change ((3 =? 3) && (negb (24 =? 24) || (3 =? 3))) with true.
    change (nth (Z.to_nat 12) DAYS_BEFORE_MONTH (-1)) with 334.
    change (nth (Z.to_nat 12) DAYS_IN_MONTH (-1)) with 31.
    change (12 =? 2) with false. change (2 <? 12) with true.
    cbn [andb]. lia. }
  destruct (Z.eqb_spec e 4) as [Ee|Ne].
  { (* the last day of a leap year *)
    cbn [orb].
    assert (r3 = 1460) by lia. assert (c <= 23) by lia.
    replace (a * 400 + 1 + b * 100 + c * 4 + e - 1)
      with (400 * a + 100 * b + 4 * c + 3 + 1) by lia.
    unfold ymd2ord, days_before_month, days_in_month.
    rewrite days_before_year_parts, is_leap_parts by lia.
    change DI400Y with 146097. change DI100Y with 36524.
    change DI4Y with 1461.
    replace (c =? 24) with false by (symmetry; apply Z.eqb_neq; lia).
    change (3 =? 3) with true.
    change (nth (Z.to_nat 12) DAYS_BEFORE_MONTH (-1)) with 334.
    change (nth (Z.to_nat 12) DAYS_IN_MONTH (-1)) with 31.
    change (12 =? 2) with false. change (2 <? 12) with true.
    cbn [andb negb orb]. lia. }
  cbn [orb].
  replace (a * 400 + 1 + b * 100 + c * 4 + e)
    with (400 * a + 100 * b + 4 * c + e + 1) by lia.
  pose proof (month_and_day_spec n
                ((e =? 3) && (negb (c =? 24) || (b =? 3))) ltac:(lia)) as Hmd.
  unfold month_and_day_ok in Hmd.
  destruct (month_and_day n ((e =? 3) && (negb (c =? 24) || (b =? 3))))
    as [m d].
  rewrite !andb_true_iff in Hmd.
  destruct Hmd as ((((H1 & H2) & H3) & H4) & H5).
  apply Z.leb_le in H1, H2, H3, H4. apply Z.eqb_eq in H5.
  unfold ymd2ord, days_before_month, days_in_month.
  rewrite days_before_year_parts, is_leap_parts by lia.
  change DI400Y with 146097. change DI100Y with 36524. change DI4Y with 1461.
  repeat split; try lia.
Qed.

Lemma days_before_year_mono (y y' : Z) :
  y <= y' -> days_before_year y <= days_before_year y'.
Proof.
  intros H. unfold days_before_year. cbv zeta.
  Z.to_euclidean_division_equations. lia.
Qed.

Lemma day_of_year_bound (y m d : Z) :
  1 <= m <= 12 -> 1 <= d <= days_in_month y m ->
  1 <= days_before_month y m + d
  <= 365 + (if is_leap y then 1 else 0).
Proof.
  intros Hm. unfold days_before_month, days_in_month.
  assert (Hc : m = 1 \/ m = 2 \/ m = 3 \/ m = 4 \/ m = 5 \/ m = 6 \/ m = 7
               \/ m = 8 \/ m = 9 \/ m = 10 \/ m = 11 \/ m = 12) by lia.
  clear Hm.
  destruct Hc as [->|[->|[->|[->|[->|[->|[->|[->|[->|[->|[->| ->]]]]]]]]]]];
    destruct (is_leap y); in_month_tables; cbn [andb]; lia.
Qed.

Lemma year_length (y : Z) :
  days_before_year (y + 1)
  = days_before_year y + 365 + (if is_leap y then 1 else 0).
Proof.
  unfold days_before_year, is_leap. cbv zeta.
  replace (y + 1 - 1) with y by lia.
  destruct (Z.eqb_spec (y mod 4) 0) as [E4|E4];
    destruct (Z.eqb_spec (y mod 100) 0) as [E100|E100];
    destruct (Z.eqb_spec (y mod 400) 0) as [E400|E400];
    cbn [negb andb orb];
    Z.to_euclidean_division_equations; lia.
Qed.

Lemma year_of_ordinal (y m d : Z) :
  1 <= m <= 12 -> 1 <= d <= days_in_month y m ->
  ymd2ord 1000 1 1 <= ymd2ord y m d <= ymd2ord 9999 12 31 ->
  1000 <= y <= 9999.
Proof.
  intros Hm Hd.
  change (ymd2ord 1000 1 1) with 364878.
  change (ymd2ord 9999 12 31) with 3652059.
  unfold ymd2ord. intros Ho.
  pose proof (day_of_year_bound y m d Hm Hd) as Hb.
  pose proof (year_length y) as Hy.
  split.
  - destruct (Z_lt_le_dec y 1000) as [Hlt|]; [|assumption]. exfalso.
    pose proof (days_before_year_mono (y + 1) 1000 ltac:(lia)) as Hmono.
    change (days_before_year 1000) with 364877 in Hmono. lia.
  - destruct (Z_lt_le_dec 9999 y) as [Hgt|]; [|assumption]. exfalso.
    pose proof (days_before_year_mono 10000 y ltac:(lia)) as Hmono.
    change (days_before_year 10000) with 3652059 in Hmono. lia.
Qed.

Lemma digit_cases (k : Z) :
  0 <= k <= 9 ->
  k = 0 \/ k = 1 \/ k = 2 \/ k = 3 \/ k = 4 \/ k = 5 \/ k = 6 \/ k = 7
  \/ k = 8 \/ k = 9.
Proof. lia. Qed.

Lemma digit_val_char (k : Z) :
  0 <= k <= 9 -> digit_val (digit_char k) = Some k.
Proof.
  intros H. apply digit_cases in H.
  destruct H as [->|[->|[->|[->|[->|[->|[->|[->|[->| ->]]]]]]]]];
    reflexivity.
Qed.

Lemma is_space_digit (k : Z) :
  0 <= k <= 9 -> is_space (digit_char k) = false.
Proof.
  intros H. apply digit_cases in H.
  destruct H as [->|[->|[->|[->|[->|[->|[->|[->|[->| ->]]]]]]]]];
    reflexivity.
Qed.

Lemma spaces_before_digit (k : Z) (rest : chars) :
  0 <= k <= 9 ->
  spaces (" "%char :: digit_char k :: rest) = Some (digit_char k :: rest).
Proof.
  intros H. unfold spaces. change (is_space " ") with true.
  cbn [lstrip]. change (is_space " ") with true. cbv iota.
  rewrite (is_space_digit k H). reflexivity.
Qed.

Lemma year_field_digits (y : Z) :
  1000 <= y <= 9999 ->
  year_field [","%char; " "%char;
              digit_char (y / 1000); digit_char (y / 100 mod 10);
              digit_char (y / 10 mod 10); digit_char (y mod 10)]
  = Some y.
Proof.
  intros H.
  assert (H1 : 0 <= y / 1000 <= 9)
    by (Z.to_euclidean_division_equations; lia).
  assert (H2 : 0 <= y / 100 mod 10 <= 9)
    by (pose proof (Z.mod_pos_bound (y / 100) 10); lia).
  assert (H3 : 0 <= y / 10 mod 10 <= 9)
    by (pose proof (Z.mod_pos_bound (y / 10) 10); lia).
  assert (H4 : 0 <= y mod 10 <= 9)
    by (pose proof (Z.mod_pos_bound y 10); lia).
  unfold year_field. rewrite spaces_before_digit by exact H1.
  rewrite !digit_val_char by assumption.
  f_equal. Z.to_euclidean_division_equations. lia.
Qed.

Lemma month_field_abbr (m : Z) (rest : chars) :
  1 <= m <= 12 ->
  month_field (list_ascii_of_string (month_abbr m) ++ rest) = Some (m, rest).
Proof.
  intros H.
  assert (Hc : m = 1 \/ m = 2 \/ m = 3 \/ m = 4 \/ m = 5 \/ m = 6 \/ m = 7
               \/ m = 8 \/ m = 9 \/ m = 10 \/ m = 11 \/ m = 12) by lia.
  destruct Hc as [->|[->|[->|[->|[->|[->|[->|[->|[->|[->|[->| ->]]]]]]]]]]];
    reflexivity.
Qed.

Lemma day_field_digits (d : Z) (tail : chars) :
  1 <= d <= 31 ->
  exists alts,
    day_field (digit_char (d / 10) :: digit_char (d mod 10) :: tail)
    = (d, tail) :: alts.
Proof.
  intros H.
  assert (Hn : exists n, d = Z.of_nat n /\ (1 <= n <= 31)%nat)
    by (exists (Z.to_nat d); lia).
  destruct Hn as (n & -> & Hn).
  do 32 (destruct n as [|n]; [try lia; eexists; reflexivity|]). lia.
Qed.

Lemma list_ascii_of_string_app (s1 s2 : string) :
  list_ascii_of_string (s1 ++ s2)%string
  = list_ascii_of_string s1 ++ list_ascii_of_string s2.
Proof. induction s1 as [|c s1 IH]; simpl; congruence. Qed.

Lemma strptime_format_ymd (y m d : Z) :
  1000 <= y <= 9999 -> 1 <= m <= 12 -> 1 <= d <= 31 ->
  strptime (format_ymd y m d) = Some (y, m, d).
Proof.
  intros Hy Hm Hd. unfold strptime, format_ymd.
  rewrite list_ascii_of_string_app. cbn [list_ascii_of_string].
  rewrite (month_field_abbr m _ Hm).
  assert (H1 : 0 <= d / 10 <= 9)
    by (Z.to_euclidean_division_equations; lia).
  rewrite spaces_before_digit by exact H1.
  destruct (day_field_digits d
              [","%char; " "%char;
               digit_char (y / 1000); digit_char (y / 100 mod 10);
               digit_char (y / 10 mod 10); digit_char (y mod 10)] Hd)
    as (alts & ->).
  cbn [first_year]. rewrite (year_field_digits y Hy). reflexivity.
Qed.

(** X11. The text printed for a day is in the format the upload must
    use: for every day from Jan 01, 1000 to Dec 31, 9999, reading the
    printed text with [to_datetime] gives that day back.  In particular
    the calendar fields the printer computes from an ordinal denote a
    real day with that ordinal. *)
Theorem printed_day_reads_back (o : Z) :
  ymd2ord 1000 1 1 <= o <= ymd2ord 9999 12 31 ->
  to_datetime (Text (formatted_date o)) = Ts o
  /\ let '(y, m, d) := ord2ymd o in
     1000 <= y <= 9999 /\ 1 <= m <= 12 /\ 1 <= d <= days_in_month y m
     /\ ymd2ord y m d = o.
Proof.
  intros Ho.
  assert (H1 : 1 <= o).
  { change (ymd2ord 1000 1 1) with 364878 in Ho. lia. }
  pose proof (ord2ymd_spec o H1) as Hs.
  unfold formatted_date.
  destruct (ord2ymd o) as [[y m] d].
  destruct Hs as (Hy1 & Hm & Hd & Heq).
  assert (Hy : 1000 <= y <= 9999).
  { apply (year_of_ordinal y m d Hm Hd). rewrite Heq. exact Ho. }
  assert (Hd31 : 1 <= d <= 31).
  { pose proof (day_of_year_bound y m d Hm Hd) as Hb.
    split; [lia|]. destruct Hd as [_ Hd]. revert Hd.
    unfold days_in_month.
    assert (Hc : m = 1 \/ m = 2 \/ m = 3 \/ m = 4 \/ m = 5 \/ m = 6
                 \/ m = 7 \/ m = 8 \/ m = 9 \/ m = 10 \/ m = 11 \/ m = 12)
      by lia.
    clear - Hc.
    destruct Hc
      as [->|[->|[->|[->|[->|[->|[->|[->|[->|[->|[->| ->]]]]]]]]]]];
      destruct (is_leap y); in_month_tables; cbn [andb]; lia. }
  split; [|auto].
  unfold to_datetime. rewrite (strptime_format_ymd y m d Hy Hm Hd31).
  replace (1 <=? y) with true by (symmetry; apply Z.leb_le; lia).
  replace (d <=? days_in_month y m) with true
    by (symmetry; apply Z.leb_le; lia).
  cbn [andb]. rewrite Heq. reflexivity.
Qed.

Lemma printed_day_reads_back_witness :
  to_datetime (Text (formatted_date (ymd2ord 2024 2 29)))
  = Ts (ymd2ord 2024 2 29)
  /\ let '(y, m, d) := ord2ymd (ymd2ord 2024 2 29) in
     1000 <= y <= 9999 /\ 1 <= m <= 12 /\ 1 <= d <= days_in_month y m
     /\ ymd2ord y m d = ymd2ord 2024 2 29.
Proof.
  apply (printed_day_reads_back (ymd2ord 2024 2 29)).
  vm_compute. split; discriminate.
Defined.

(** ** Dates compare as calendar days (lines 35, 41, 57 and 72) *)

Lemma month_cases (m : Z) :
  1 <= m <= 12 ->
  m = 1 \/ m = 2 \/ m = 3 \/ m = 4 \/ m = 5 \/ m = 6 \/ m = 7 \/ m = 8
  \/ m = 9 \/ m = 10 \/ m = 11 \/ m = 12.
Proof. lia. Qed.

Lemma next_month_starts_later (y m m' : Z) :
  1 <= m <= 12 -> 1 <= m' <= 12 -> m < m' ->
  days_before_month y m + days_in_month y m <= days_before_month y m'.
Proof.
  intros Hm Hm' Hlt. unfold days_before_month, days_in_month.
  apply month_cases in Hm. apply month_cases in Hm'.
  destruct Hm as [->|[->|[->|[->|[->|[->|[->|[->|[->|[->|[->| ->]]]]]]]]]]];
    destruct Hm'
      as [->|[->|[->|[->|[->|[->|[->|[->|[->|[->|[->| ->]]]]]]]]]]];
    try lia;
    destruct (is_leap y); in_month_tables; cbn [andb]; lia.
Qed.

Lemma ymd2ord_increasing (y m d y' m' d' : Z) :
  1 <= m <= 12 -> 1 <= d <= days_in_month y m ->
  1 <= m' <= 12 -> 1 <= d' <= days_in_month y' m' ->
  y < y' \/ (y = y' /\ (m < m' \/ (m = m' /\ d < d'))) ->
  ymd2ord y m d < ymd2ord y' m' d'.
Proof.
  intros Hm Hd Hm' Hd' Hlt. unfold ymd2ord.
  pose proof (day_of_year_bound y m d Hm Hd) as Hb.
  pose proof (day_of_year_bound y' m' d' Hm' Hd') as Hb'.
  destruct Hlt as [Hy|[<- [Hmm|[<- Hdd]]]].
  - pose proof (year_length y) as Hl.
    pose proof (days_before_year_mono (y + 1) y' ltac:(lia)). lia.
  - pose proof (next_month_starts_later y m m' Hm Hm' Hmm). lia.
  - lia.
Qed.

Lemma digit_val_range (c : ascii) (a : Z) :
  digit_val c = Some a -> 0 <= a <= 9.
Proof.
  unfold digit_val.
  destruct ((48 <=? Z.of_N (N_of_ascii c)) && (Z.of_N (N_of_ascii c) <=? 57))
    eqn:E; [|discriminate].
  intros H. injection H as <-.
  apply andb_true_iff in E. destruct E as [E1 E2].
  apply Z.leb_le in E1, E2. lia.
Qed.

Lemma day_field_range (cs : chars) (d : Z) (rest : chars) :
  In (d, rest) (day_field cs) -> 1 <= d <= 31.
Proof.
  unfold day_field. destruct cs as [|c1 cs1]; [intros []|].
  destruct (digit_val c1) as [a|] eqn:Ea; [|intros []].
  apply digit_val_range in Ea.
  intros H. apply in_app_or in H. destruct H as [H|H].
  - destruct cs1 as [|c2 cs2]; [destruct H|].
    destruct (digit_val c2) as [b|] eqn:Eb; [|destruct H].
    apply digit_val_range in Eb.
    remember (10 * a + b) as v eqn:Hv.
    destruct (((a =? 3) && (b <=? 1)) || ((1 <=? a) && (a <=? 2))
              || ((a =? 0) && (1 <=? b))) eqn:E; [|destruct H].
    destruct H as [H|[]]. injection H as <- _.
    destruct (Z.eqb_spec a 3), (Z.leb_spec b 1), (Z.leb_spec 1 a),
      (Z.leb_spec a 2), (Z.eqb_spec a 0), (Z.leb_spec 1 b);
      simpl in E; try discriminate; lia.
  - destruct (1 <=? a) eqn:E; [|destruct H].
    destruct H as [H|[]]. injection H as <- _.
    apply Z.leb_le in E. lia.
Qed.

Lemma first_year_In (alts : list (Z * chars)) (d y : Z) :
  first_year alts = Some (d, y) -> exists rest, In (d, rest) alts.
Proof.
  induction alts as [|[d0 rest0] alts IH]; simpl; [discriminate|].
  destruct (year_field rest0).
  - intros H. injection H as <- _. eauto.
  - intros H. destruct (IH H) as (rest & Hin). eauto.
Qed.

Lemma index_of_range (w : string) (l : list string) (i m : Z) :
  index_of w l i = Some m -> i <= m < i + Z.of_nat (List.length l).
Proof.
  revert i. induction l as [|x l IH]; intros i; simpl; [discriminate|].
  destruct (String.eqb w x).
  - intros H. injection H as <-. lia.
  - intros H. apply IH in H. lia.
Qed.

Lemma strptime_fields (s : string) (y m d : Z) :
  strptime s = Some (y, m, d) -> 1 <= m <= 12 /\ 1 <= d <= 31.
Proof.
  unfold strptime.
  destruct (month_field (list_ascii_of_string s)) as [[m0 rest]|] eqn:Em;
    [|discriminate].
  destruct (spaces rest) as [rest'|]; [|discriminate].
  destruct (first_year (day_field rest')) as [[d0 y0]|] eqn:Ed;
    [|discriminate].
  intros H. injection H as <- <- <-.
  split.
  - unfold month_field in Em.
    destruct (list_ascii_of_string s) as [|a [|b [|c r]]]; try discriminate.
    destruct (index_of _ month_names 1) as [k|] eqn:Ek; [|discriminate].
    injection Em as <- _. apply index_of_range in Ek. simpl in Ek. lia.
  - destruct (first_year_In _ _ _ Ed) as (r & Hin).
    exact (day_field_range _ _ _ Hin).
Qed.

Lemma to_datetime_fields (s : string) (y m d o : Z) :
  strptime s = Some (y, m, d) -> to_datetime (Text s) = Ts o ->
  1 <= y /\ d <= days_in_month y m /\ o = ymd2ord y m d.
Proof.
  intros Hs. unfold to_datetime. rewrite Hs.
  destruct ((1 <=? y) && (d <=? days_in_month y m)) eqn:E; [|discriminate].
  intros H. injection H as <-.
  apply andb_true_iff in E. destruct E as [E1 E2].
  apply Z.leb_le in E1, E2. auto.
Qed.

(** X12. Timestamps compare as the calendar days of the texts they are
    read from: of two valid dates, the one with the later year, or the
    later month of the same year, or the later day of the same month,
    and only that one, has the larger timestamp.  So the descending sort,
    the most recent date and the bounds of the pay period are those of
    the calendar. *)
Theorem dates_compare_as_calendar_days
  (s s' : string) (y m d y' m' d' o o' : Z) :
  strptime s = Some (y, m, d) -> strptime s' = Some (y', m', d') ->
  to_datetime (Text s) = Ts o -> to_datetime (Text s') = Ts o' ->
  (o < o' <-> y < y' \/ (y = y' /\ (m < m' \/ (m = m' /\ d < d')))).
Proof.
  intros Hs Hs' Ho Ho'.
  destruct (strptime_fields s y m d Hs) as (Hm & Hd).
  destruct (strptime_fields s' y' m' d' Hs') as (Hm' & Hd').
  destruct (to_datetime_fields s y m d o Hs Ho) as (_ & Hv & ->).
  destruct (to_datetime_fields s' y' m' d' o' Hs' Ho') as (_ & Hv' & ->).
  assert (V : 1 <= d <= days_in_month y m) by lia.
  assert (V' : 1 <= d' <= days_in_month y' m') by lia.
  split.
  - intros Hlt.
    destruct (Z.lt_trichotomy y y') as [Hy|[Hy|Hy]]; [auto| |].
    + subst y'. right. split; [reflexivity|].
      destruct (Z.lt_trichotomy m m') as [Hmm|[Hmm|Hmm]]; [auto| |].
      * subst m'. right. split; [reflexivity|].
        unfold ymd2ord in Hlt. lia.
      * pose proof (ymd2ord_increasing y m' d' y m d Hm' V' Hm V
                      ltac:(right; split; [reflexivity | left; exact Hmm])).
        lia.
    + pose proof (ymd2ord_increasing y' m' d' y m d Hm' V' Hm V
                    ltac:(left; exact Hy)).
      lia.
  - apply ymd2ord_increasing; assumption.
Qed.

Lemma dates_compare_as_calendar_days_witness :
  ymd2ord 2024 2 29 < ymd2ord 2024 3 1
  <-> 2024 < 2024 \/ (2024 = 2024 /\ (2 < 3 \/ (2 = 3 /\ 29 < 1))).
Proof.
  apply (dates_compare_as_calendar_days "Feb 29, 2024" "mar 1, 2024"
           2024 2 29 2024 3 1); reflexivity.
Defined.

(** ** No row is lost (lines 31 to 44) *)

Lemma frame_dates (d : list Timestamp) (x : list pyfloat) :
  List.length d = List.length x -> map workDate (frame d x) = d.
Proof.
  revert x. induction d as [|t d IH]; intros [|y x] H; simpl in H;
    try discriminate; [reflexivity|].
  unfold frame in *. simpl. f_equal. apply IH. lia.
Qed.

Lemma filter_split_length {A} (p : A -> bool) (l : list A) :
  (List.length (filter p l)
   + List.length (filter (fun x => negb (p x)) l))%nat
  = List.length l.
Proof.
  induction l as [|x l IH]; simpl; [reflexivity|].
  destruct (p x); simpl; lia.
Qed.

Lemma filter_map_length {A B} (f : A -> B) (p : B -> bool) (l : list A) :
  List.length (filter p (map f l))
  = List.length (filter (fun x => p (f x)) l).
Proof.
  induction l as [|x l IH]; simpl; [reflexivity|].
  destruct (p (f x)); simpl; congruence.
Qed.

(** X13. When both columns are present and every payout converts, every
    uploaded row is accounted for: the rows shown in the expanders, each
    in exactly one of them, and the rows whose workDate does not parse
    make up the rows of the upload. *)
Theorem every_row_is_grouped_or_undated
  (df : DataFrame) (payouts : list pyfloat) :
  In "workDate" (columns df) -> In "payout" (columns df) ->
  clean_payout df = inr payouts ->
  let rows := valid_rows (clean_workDate df) payouts in
  Permutation (List.concat (map snd (grouped rows))) rows
  /\ (List.length (List.concat (map snd (grouped rows)))
      + List.length (filter isnat (clean_workDate df)))%nat
     = List.length (data df).
Proof.
  intros Hw Hp Hc rows.
  assert (Hperm : Permutation (List.concat (map snd (grouped rows))) rows)
    by apply groups_partition, valid_rows_dated.
  split; [exact Hperm|].
  rewrite (Permutation_length Hperm).
  assert (Lw : List.length (clean_workDate df) = List.length (data df)).
  { unfold clean_workDate.
    destruct df as [cols rows0]. cbn [columns data] in *.
    rewrite getitem_field by exact Hw. rewrite !length_map. reflexivity. }
  assert (Lp : List.length payouts = List.length (data df)).
  { unfold clean_payout in Hc. apply astype_float_length in Hc.
    rewrite Hc. destruct df as [cols rows0]. cbn [columns data] in *.
    rewrite getitem_field by exact Hp. rewrite !length_map. reflexivity. }
  unfold rows, valid_rows.
  rewrite <- (Permutation_length (sort_values_perm _)).
  unfold dropna.
  pose proof (frame_dates (clean_workDate df) payouts ltac:(lia)) as Hd.
  assert (E1 : List.length (filter isnat (clean_workDate df))
               = List.length (filter (fun r => isnat (workDate r))
                                (frame (clean_workDate df) payouts))).
  { rewrite <- Hd at 1. apply filter_map_length. }
  assert (E2 : List.length (frame (clean_workDate df) payouts)
               = List.length (data df)).
  { transitivity
      (List.length (map workDate (frame (clean_workDate df) payouts))).
    - symmetry. apply length_map.
    - rewrite Hd. exact Lw. }
  pose proof (filter_split_length (fun r => isnat (workDate r))
                (frame (clean_workDate df) payouts)) as E3.
  cbv beta in E3. lia.
Qed.

Lemma every_row_is_grouped_or_undated_witness :
  let df := table [("Dec 17, 2024", "$100.00"); ("tomorrow", "$1.00");
                   ("Dec 17, 2024", "$50.00")] in
  let rows := valid_rows (clean_workDate df)
                [Fin 100; Fin 1; Fin 50] in
  Permutation (List.concat (map snd (grouped rows))) rows
  /\ (List.length (List.concat (map snd (grouped rows)))
      + List.length (filter isnat (clean_workDate df)))%nat
     = List.length (data df).
Proof.
  intros df.
  apply (every_row_is_grouped_or_undated df [Fin 100; Fin 1; Fin 50]).
  - simpl. auto.
  - simpl. auto.
  - vm_compute. reflexivity.
Defined.
